(** * Diabetic-retinopathy screening app: model resolver, preprocessor,
      predictor and batch aggregator of [app.py]

    The script is embedded shallowly.  Every Python function that can raise
    lives in the monad [Py]: a computation yields the list of calls it made
    to the outside world (filesystem, Keras, PIL, NumPy) together with
    either a value or the message [str(e)] of the exception it raised.
    The outside world itself is a record of oracles, [World]; the theorems
    quantify over all worlds.

    Conventions of the embedding:
    - Python floats are exact rationals ([Q]); the rounding of binary64
      arithmetic and NaN are outside the model.
    - Only subclasses of [Exception] are raised by the oracles, so
      [except Exception] and the bare [except] of the batch loop both
      catch everything an oracle raises.
    - The Streamlit widgets (progress bar, status text, metrics) are not
      modelled; only the values handed to them are. *)

From Stdlib Require Import String Ascii List Bool Arith ZArith QArith Lia Lqa.
From Stdlib Require Import DecimalString Permutation.
Import ListNotations.

Close Scope Q_scope.
Open Scope string_scope.
Open Scope list_scope.

#[local] Set Warnings "-register-all".

(** ** Exceptions and the call log *)

Inductive result (A : Type) : Type :=
| Ok (a : A)
| Raise (msg : string).

Arguments Ok {A} a.
Arguments Raise {A} msg.

(** One constructor per kind of call that leaves the script. *)
Inductive Event : Type :=
| EvExists (path : string)          (* os.path.exists(path) *)
| EvLoadModel (path : string)       (* load_model(path, compile=False) *)
| EvJsonLoad (path : string)        (* open(path, 'r') + json.load(f) *)
| EvImageOpen (filename : string)   (* Image.open(file) *)
| EvConvert (mode : string)         (* image.convert(mode) *)
| EvResize (size : nat * nat) (resample : string) (* image.resize(size, resample) *)
| EvArray                           (* np.array(image, dtype=np.float32) *)
| EvExpandDims (axis : nat)         (* np.expand_dims(a, axis=axis) *)
| EvPreprocessInput                 (* efficientnet.preprocess_input(a) *)
| EvPredict.                        (* model.predict(x, verbose=0) *)

Definition Py (A : Type) : Type := (list Event * result A)%type.

Definition trace_of {A} (m : Py A) : list Event := fst m.
Definition result_of {A} (m : Py A) : result A := snd m.

Definition ret {A} (a : A) : Py A := ([], Ok a).

Definition raise {A} (msg : string) : Py A := ([], Raise msg).

Definition bind {A B} (m : Py A) (k : A -> Py B) : Py B :=
  match m with
  | (t, Ok a) => let (t', r) := k a in (t ++ t', r)
  | (t, Raise e) => (t, Raise e)
  end.

(** [try: body  except Exception as e: handler(str(e))] *)
Definition try_except {A} (body : Py A) (handler : string -> Py A) : Py A :=
  match body with
  | (t, Ok a) => (t, Ok a)
  | (t, Raise e) => let (t', r) := handler e in (t ++ t', r)
  end.

(** A call to the outside world: logged, and its outcome is the oracle's. *)
Definition call {A} (ev : Event) (outcome : result A) : Py A := ([ev], outcome).

Declare Scope py_scope.
Delimit Scope py_scope with py.
Notation "x <- m ;; k" := (bind m (fun x => k))
  (at level 61, m at next level, right associativity) : py_scope.
Notation "' pat <- m ;; k" := (bind m (fun x => match x with pat => k end))
  (at level 61, pat pattern, m at next level, right associativity) : py_scope.
Open Scope py_scope.

(** ** Python values that cross function boundaries *)

(** What [json.load] can return.  [JNull] is Python's [None]. *)
Inductive json : Type :=
| JNull
| JBool (b : bool)
| JNum (q : Q)
| JStr (s : string)
| JList (items : list json)
| JDict (items : list (string * json)).

(** [metadata is None] *)
Definition is_None (v : json) : bool :=
  match v with JNull => true | _ => false end.

(** Truth value of an optional string, as tested by [if error:]:
    [None] and the empty string are both false. *)
Definition truthy (error : option string) : bool :=
  match error with
  | Some (String _ _) => true
  | _ => false
  end.

(** A file handed over by [st.file_uploader]. *)
Record UploadedFile : Type := {
  name : string;
  getvalue : list Byte.byte
}.

(** One entry of [results]: a dict with four fixed keys.  ['Prediction']
    holds whatever [predict_image] returned as label, which may be [None]. *)
Record BatchRow : Type := {
  Filename : string;
  Prediction : option string;
  Confidence : string;
  Status : string
}.

(** ** The outside world *)

Record World : Type := {
  Model : Type;      (* a loaded Keras model *)
  Image : Type;      (* a PIL image *)
  ndarray : Type;    (* a NumPy array *)
  (* filesystem and loaders *)
  path_exists : string -> bool;
  load_model : string -> result Model;
  json_load : string -> result json;
  (* PIL *)
  Image_open : UploadedFile -> result Image;
  mode : Image -> string;
  size : Image -> nat * nat;                       (* (width, height) *)
  convert : Image -> string -> result Image;
  resize : Image -> nat * nat -> string -> result Image;
  (* NumPy and Keras *)
  np_array : Image -> result ndarray;
  expand_dims : ndarray -> nat -> result ndarray;
  preprocess_input : ndarray -> result ndarray;
  shape : ndarray -> list nat;
  dtype : ndarray -> string;
  predict : Model -> option ndarray -> result (list (list Q));
  (* pandas: pd.DataFrame(results).to_csv(index=False) *)
  to_csv : list BatchRow -> string
}.

Arguments mode {_} _.
Arguments size {_} _.
Arguments shape {_} _.
Arguments dtype {_} _.

(** ** [load_trained_model] *)

Definition possible_paths : list string :=
  [ "models/best_model.h5";
    "models/dr_model_final.h5";
    "best_model.h5";
    "dr_model_final.h5" ].

Definition metadata_paths : list string :=
  [ "models/metadata.json"; "metadata.json" ].

Definition default_metadata : json :=
  JDict [ ("classes", JList [JStr "DR"; JStr "No_DR"]);
          ("test_accuracy", JNum (96 # 100)%Q);
          ("test_auc", JNum (99 # 100)%Q);
          ("architecture", JStr "EfficientNetB3") ].

(** [for path in possible_paths: if os.path.exists(path): model_path = path; break]
    with [model_path = None] before the loop. *)
Fixpoint find_model_path (W : World) (paths : list string) : Py (option string) :=
  match paths with
  | [] => ret None
  | path :: rest =>
      found <- call (EvExists path) (Ok (path_exists W path)) ;;
      if found then ret (Some path) else find_model_path W rest
  end.

(** [for meta_path in metadata_paths: if os.path.exists(meta_path): ...; break]
    with [metadata = None] before the loop. *)
Fixpoint find_metadata (W : World) (paths : list string) : Py json :=
  match paths with
  | [] => ret JNull
  | meta_path :: rest =>
      found <- call (EvExists meta_path) (Ok (path_exists W meta_path)) ;;
      if found then call (EvJsonLoad meta_path) (json_load W meta_path)
      else find_metadata W rest
  end.

Definition load_trained_model (W : World)
  : Py (option (Model W) * json * option string) :=
  try_except
    (model_path <- find_model_path W possible_paths ;;
     match model_path with
     | None => ret (None, JNull, Some "Model file not found")
     | Some model_path =>
         model <- call (EvLoadModel model_path) (load_model W model_path) ;;
         metadata <- find_metadata W metadata_paths ;;
         let metadata := if is_None metadata then default_metadata else metadata in
         ret (Some model, metadata, None)
     end)
    (fun e => ret (None, JNull, Some e)).

(** ** [preprocess_image] *)

Definition LANCZOS : string := "LANCZOS".

Definition preprocess_image (W : World) (image : Image W) (target_size : nat * nat)
  : Py (option (ndarray W) * option string) :=
  try_except
    (image <- (if negb (mode image =? "RGB")
               then call (EvConvert "RGB") (convert W image "RGB")
               else ret image) ;;
     image <- call (EvResize target_size LANCZOS) (resize W image target_size LANCZOS) ;;
     img_array <- call EvArray (np_array W image) ;;
     img_array <- call (EvExpandDims 0) (expand_dims W img_array 0) ;;
     img_array <- call EvPreprocessInput (preprocess_input W img_array) ;;
     ret (Some img_array, None))
    (fun e => ret (None, Some e)).

(** ** [predict_image] *)

(** [a[0]] on a NumPy axis. *)
Definition getitem0 {A} (a : list A) : Py A :=
  match a with
  | x :: _ => ret x
  | [] => raise "index 0 is out of bounds for axis 0 with size 0"
  end.

Definition predict_image (W : World) (model : option (Model W)) (image : Image W)
  : Py (option string * option Q * option string) :=
  match model with
  | None => ret (None, None, Some "Model not loaded")
  | Some model =>
      try_except
        ('(processed_img, error) <- preprocess_image W image (224, 224) ;;
         if truthy error then ret (None, None, error)
         else
           prediction <- call EvPredict (predict W model processed_img) ;;
           row <- getitem0 prediction ;;
           probability <- getitem0 row ;;
           if Qlt_le_dec (1 # 2)%Q probability
           then ret (Some "No_Diabetic_Retinopathy", Some probability, None)
           else ret (Some "Diabetic_Retinopathy", Some (1 - probability)%Q, None))
        (fun e => ret (None, None, Some e))
  end.

(** ** Single-image report: suggested download name *)

(** [s.split(sep)] for a one-character separator. *)
Fixpoint split (sep : ascii) (s : string) : list string :=
  match s with
  | EmptyString => [EmptyString]
  | String c rest =>
      if Ascii.eqb c sep then EmptyString :: split sep rest
      else match split sep rest with
           | piece :: pieces => String c piece :: pieces
           | [] => [String c EmptyString]
           end
  end.

(** [f"DR_Report_{uploaded_file.name.split('.')[0]}.txt"];
    [split] never returns the empty list, so [[0]] cannot raise. *)
Definition report_file_name (uploaded_file : UploadedFile) : string :=
  "DR_Report_" ++ hd EmptyString (split "." (name uploaded_file)) ++ ".txt".

Definition batch_file_name : string := "batch_dr_analysis.csv".

(** ** Batch analysis *)

(** Nearest integer, ties to even. *)
Definition round_half_even (q : Q) : Z :=
  let n := Qnum q in
  let d := Zpos (Qden q) in
  let fl := (n / d)%Z in
  let twice_rem := (2 * (n mod d))%Z in
  if (twice_rem <? d)%Z then fl
  else if (d <? twice_rem)%Z then (fl + 1)%Z
  else if Z.even fl then fl else (fl + 1)%Z.

Definition string_of_Z_abs (z : Z) : string :=
  NilZero.string_of_uint (N.to_uint (Z.abs_N z)).

(** [f"{x:.2f}"] *)
Definition format_2f (x : Q) : string :=
  let cents := Z.abs (round_half_even (x * 100)%Q) in
  let frac := (cents mod 100)%Z in
  (if (Qnum x <? 0)%Z then "-" else EmptyString)
  ++ string_of_Z_abs (cents / 100)
  ++ "."
  ++ (if (frac <? 10)%Z then "0" else EmptyString) ++ string_of_Z_abs frac.

(** [confidence * 100]; multiplying [None] raises [TypeError]. *)
Definition times100 (confidence : option Q) : Py Q :=
  match confidence with
  | Some c => ret (c * 100)%Q
  | None => raise "unsupported operand type(s) for *: 'NoneType' and 'int'"
  end.

(** [predicted_label == 'Diabetic_Retinopathy'] *)
Definition label_is (predicted_label : option string) (s : string) : bool :=
  match predicted_label with
  | Some l => l =? s
  | None => false
  end.

(** Body of [for idx, file in enumerate(batch_files)]: the new value of
    [results] after the iteration.  The handler is a bare [except:]. *)
Definition batch_step (W : World) (model : option (Model W))
    (results : list BatchRow) (file : UploadedFile) : Py (list BatchRow) :=
  try_except
    (image <- call (EvImageOpen (name file)) (Image_open W file) ;;
     '(predicted_label, confidence, error) <- predict_image W model image ;;
     if truthy error then
       ret (results ++ [ {| Filename := name file;
                            Prediction := Some "Error";
                            Confidence := "N/A";
                            Status := "Failed" |} ])
     else
       let is_positive := label_is predicted_label "Diabetic_Retinopathy" in
       pct <- times100 confidence ;;
       ret (results ++ [ {| Filename := name file;
                            Prediction := predicted_label;
                            Confidence := format_2f pct ++ "%";
                            Status := if is_positive then "DR Detected" else "No DR" |} ]))
    (fun _ =>
       ret (results ++ [ {| Filename := name file;
                            Prediction := Some "Error";
                            Confidence := "N/A";
                            Status := "Failed" |} ])).

Fixpoint batch_loop (W : World) (model : option (Model W))
    (results : list BatchRow) (batch_files : list UploadedFile) : Py (list BatchRow) :=
  match batch_files with
  | [] => ret results
  | file :: rest =>
      results <- batch_step W model results file ;;
      batch_loop W model results rest
  end.

(** [results = []] followed by the loop. *)
Definition process_batch (W : World) (model : option (Model W))
    (batch_files : list UploadedFile) : Py (list BatchRow) :=
  batch_loop W model [] batch_files.

(** [needle in hay] on strings. *)
Fixpoint contains (needle hay : string) : bool :=
  prefix needle hay ||
  match hay with
  | EmptyString => false
  | String _ rest => contains needle rest
  end.

(** [sum(1 for r in results if needle in r['Status'])] *)
Definition count_status (needle : string) (results : list BatchRow) : nat :=
  list_sum (map (fun _ => 1) (filter (fun r => contains needle (Status r)) results)).

Record Summary : Type := {
  total : nat;
  positive : nat;
  negative : nat;
  failed : nat
}.

Definition summary (results : list BatchRow) : Summary :=
  {| total := length results;
     positive := count_status "DR Detected" results;
     negative := count_status "No DR" results;
     failed := count_status "Failed" results |}.

(** What the "Process All Images" handler hands to the page: the rows, the
    four counters and the CSV text of the rows. *)
Definition batch_export (W : World) (model : option (Model W))
    (batch_files : list UploadedFile) : Py (list BatchRow * Summary * string) :=
  results <- process_batch W model batch_files ;;
  ret (results, summary results, to_csv W results).

(** ** Values shown from the metadata (sidebar, result table, report) *)

(** What the script needs from Python's builtins on values whose printed
    form the model does not fix: [str(v)] of a number, a list or a dict,
    and whether a number is an [int] or a [float]. *)
Record Builtins : Type := {
  repr : json -> string;
  number_type : Q -> string
}.

(** [type(v).__name__] *)
Definition type_name (B : Builtins) (v : json) : string :=
  match v with
  | JNull => "NoneType"
  | JBool _ => "bool"
  | JNum q => number_type B q
  | JStr _ => "str"
  | JList _ => "list"
  | JDict _ => "dict"
  end.

(** [str(v)], as an f-string applies it to [{v}]. *)
Definition py_str (B : Builtins) (v : json) : string :=
  match v with
  | JStr s => s
  | JNull => "None"
  | JBool true => "True"
  | JBool false => "False"
  | _ => repr B v
  end.

(** [bool(v)], as tested by [if metadata:]. *)
Definition json_truthy (v : json) : bool :=
  match v with
  | JNull => false
  | JBool b => b
  | JNum q => negb (Qeq_bool q 0)
  | JStr EmptyString => false
  | JStr (String _ _) => true
  | JList [] => false
  | JList (_ :: _) => true
  | JDict [] => false
  | JDict (_ :: _) => true
  end.

(** [metadata.get(key, default)]; only a dict has the method.  The keys of
    a dict are distinct, so the entry found is the entry. *)
Definition metadata_get (B : Builtins) (metadata : json) (key : string) (default : json)
  : Py json :=
  match metadata with
  | JDict items =>
      ret (match find (fun kv => fst kv =? key) items with
           | Some kv => snd kv
           | None => default
           end)
  | _ => raise ("'" ++ type_name B metadata ++ "' object has no attribute 'get'")
  end.

(** [v * 100] *)
Definition mul100 (v : json) : Py json :=
  match v with
  | JNum q => ret (JNum (q * 100)%Q)
  | JBool b => ret (JNum (if b then 100 else 0)%Q)
  | JStr s => ret (JStr (String.concat EmptyString (repeat s 100)))
  | JList items => ret (JList (concat (repeat items 100)))
  | JNull => raise "unsupported operand type(s) for *: 'NoneType' and 'int'"
  | JDict _ => raise "unsupported operand type(s) for *: 'dict' and 'int'"
  end.

Definition zeros (n : nat) : string := String.concat EmptyString (repeat "0" n).

(** [f"{x:.<digits>f}"] on a number: the nearest decimal with [digits]
    places, a tie going to the even neighbour.  Ties are those of the
    exact rational; a binary64 that only approximates such a decimal
    is not a tie in Python. *)
Definition format_fixed (digits : nat) (x : Q) : string :=
  let scale := (10 ^ Z.of_nat digits)%Z in
  let n := Z.abs (round_half_even (x * inject_Z scale)%Q) in
  let frac := string_of_Z_abs (n mod scale) in
  (if (Qnum x <? 0)%Z then "-" else EmptyString)
  ++ string_of_Z_abs (n / scale)
  ++ (if (digits =? 0)%nat then EmptyString
      else "." ++ zeros (digits - String.length frac) ++ frac).

(** [f"{v:.<digits>f}"] on any value parsed from JSON. *)
Definition format_f (digits : nat) (v : json) : Py string :=
  match v with
  | JNum q => ret (format_fixed digits q)
  | JBool b => ret (format_fixed digits (if b then 1 else 0)%Q)
  | JStr _ => raise "Unknown format code 'f' for object of type 'str'"
  | JList _ => raise "unsupported format string passed to list.__format__"
  | JDict _ => raise "unsupported format string passed to dict.__format__"
  | JNull => raise "unsupported format string passed to NoneType.__format__"
  end.

(** [f"{metadata.get('test_accuracy', 0)*100:.1f}%"] *)
Definition accuracy_text (B : Builtins) (metadata : json) : Py string :=
  v <- metadata_get B metadata "test_accuracy" (JNum 0%Q) ;;
  v <- mul100 v ;;
  s <- format_f 1 v ;;
  ret (s ++ "%")%string.

(** [f"{metadata.get('test_auc', 0):.3f}"] *)
Definition auc_text (B : Builtins) (metadata : json) : Py string :=
  v <- metadata_get B metadata "test_auc" (JNum 0%Q) ;;
  format_f 3 v.

(** [f"**Model:** {metadata.get('architecture', 'EfficientNet')}"] *)
Definition model_text (B : Builtins) (metadata : json) : Py string :=
  v <- metadata_get B metadata "architecture" (JStr "EfficientNet") ;;
  ret ("**Model:** " ++ py_str B v)%string.

(** The "Model Statistics" block of the sidebar: the two metrics and the
    info line, or nothing when [metadata] is falsy. *)
Definition sidebar_stats (B : Builtins) (metadata : json)
  : Py (option (string * string * string)) :=
  if json_truthy metadata then
    accuracy <- accuracy_text B metadata ;;
    auc <- auc_text B metadata ;;
    info <- model_text B metadata ;;
    ret (Some (accuracy, auc, info))
  else ret None.

(** ** Vocabulary of the statements *)

(** The row written for an item that failed. *)
Definition failed_row (filename : string) : BatchRow :=
  {| Filename := filename;
     Prediction := Some "Error";
     Confidence := "N/A";
     Status := "Failed" |}.

(** What one batch item does before a row is written: open, then predict. *)
Definition item_outcome (W : World) (model : option (Model W)) (file : UploadedFile)
  : result (option string * option Q * option string) :=
  match Image_open W file with
  | Raise e => Raise e
  | Ok image => result_of (predict_image W model image)
  end.

(** An item fails when opening raises or the prediction carries an error. *)
Definition item_fails (W : World) (model : option (Model W)) (file : UploadedFile) : bool :=
  match item_outcome W model file with
  | Ok (_, _, None) => false
  | _ => true
  end.

Definition count_fails (W : World) (model : option (Model W))
    (batch_files : list UploadedFile) : nat :=
  length (filter (item_fails W model) batch_files).

(** The larger of two rationals. *)
Definition larger (a b : Q) : Q := if Qlt_le_dec b a then a else b.

(** The three shapes of triple that [predict_image] returns. *)
Inductive prediction_shape : option string * option Q * option string -> Prop :=
| shape_no_dr (c : Q) :
    prediction_shape (Some "No_Diabetic_Retinopathy", Some c, None)
| shape_dr (c : Q) :
    prediction_shape (Some "Diabetic_Retinopathy", Some c, None)
| shape_error (msg : string) :
    prediction_shape (None, None, Some msg).

(** The row that the loop body appends for [file], read off the outcome. *)
Definition row_of (W : World) (model : option (Model W)) (file : UploadedFile) : BatchRow :=
  match item_outcome W model file with
  | Ok (predicted_label, Some c, error) =>
      if truthy error then failed_row (name file)
      else {| Filename := name file;
              Prediction := predicted_label;
              Confidence := format_2f (c * 100)%Q ++ "%";
              Status := if label_is predicted_label "Diabetic_Retinopathy"
                        then "DR Detected" else "No DR" |}
  | _ => failed_row (name file)
  end.

(** The first candidate that exists, as a pure search. *)
Definition first_existing (W : World) (paths : list string) : option string :=
  find (path_exists W) paths.

(** What the script relies on from Pillow, NumPy and Keras: converting sets
    the mode, resizing sets the size, an RGB image becomes an array of
    shape (height, width, 3) and of the requested dtype, [expand_dims]
    with [axis=0] prepends an axis of size 1, and EfficientNet's
    [preprocess_input] keeps shape and dtype. *)
Record LibraryContract (W : World) : Prop := {
  convert_mode : forall im m im',
    convert W im m = Ok im' -> mode im' = m /\ size im' = size im;
  resize_size : forall im sz flt im',
    resize W im sz flt = Ok im' -> size im' = sz /\ mode im' = mode im;
  np_array_shape : forall im a,
    np_array W im = Ok a -> mode im = "RGB" ->
    shape a = [snd (size im); fst (size im); 3] /\ dtype a = "float32";
  expand_dims_shape : forall a a',
    expand_dims W a 0 = Ok a' -> shape a' = 1 :: shape a /\ dtype a' = dtype a;
  preprocess_input_shape : forall a a',
    preprocess_input W a = Ok a' -> shape a' = shape a /\ dtype a' = dtype a
}.

(** A valid input image: none of the library calls made on it raises. *)
Definition valid_image (W : World) (image : Image W) : Prop :=
  exists rgb small a b c,
    (if mode image =? "RGB" then rgb = image else convert W image "RGB" = Ok rgb) /\
    resize W rgb (224, 224) LANCZOS = Ok small /\
    np_array W small = Ok a /\
    expand_dims W a 0 = Ok b /\
    preprocess_input W b = Ok c.

(** Recognisers of events in a call log. *)
Definition is_open_event (ev : Event) : bool :=
  match ev with EvImageOpen _ => true | _ => false end.

Definition is_predict_event (ev : Event) : bool :=
  match ev with EvPredict => true | _ => false end.

Definition is_load_event (ev : Event) : bool :=
  match ev with EvLoadModel _ => true | _ => false end.

(** The first library call of [preprocess_image] that raises on [image],
    raises with message [msg]: the calls before it, in the order of the
    source, all return. *)
Definition first_failure (W : World) (image : Image W) (target_size : nat * nat)
    (msg : string) : Prop :=
  ((mode image =? "RGB") = false /\ convert W image "RGB" = Raise msg) \/
  exists rgb,
    (if mode image =? "RGB" then rgb = image else convert W image "RGB" = Ok rgb) /\
    (resize W rgb target_size LANCZOS = Raise msg \/
     exists small,
       resize W rgb target_size LANCZOS = Ok small /\
       (np_array W small = Raise msg \/
        exists a,
          np_array W small = Ok a /\
          (expand_dims W a 0 = Raise msg \/
           exists b,
             expand_dims W a 0 = Ok b /\ preprocess_input W b = Raise msg))).

(** The calls logged for one file of a batch: its [Image.open], then calls
    among which there is no other [Image.open] and at most one forward
    pass. *)
Definition file_segment (file : UploadedFile) (segment : list Event) : Prop :=
  exists rest,
    segment = EvImageOpen (name file) :: rest /\
    filter is_open_event rest = [] /\
    length (filter is_predict_event rest) <= 1.

(** None of the model candidates is on the filesystem. *)
Definition no_model_file (W : World) : Prop :=
  forall p, In p possible_paths -> path_exists W p = false.

(** None of the metadata candidates is on the filesystem. *)
Definition no_metadata_file (W : World) : Prop :=
  forall p, In p metadata_paths -> path_exists W p = false.

(** Metadata that is either a parsed metadata file or the default record. *)
Definition metadata_resolved (W : World) (md : json) : Prop :=
  md = default_metadata \/
  exists p, In p metadata_paths /\ path_exists W p = true /\ json_load W p = Ok md.

(** The resolver's behaviour without a model file, the way the
    specification words it: null model, the fixed error, and metadata
    that is resolved all the same. *)
Definition spec_resolver_without_model (W : World) : Prop :=
  no_model_file W ->
  exists tr md,
    load_trained_model W = (tr, Ok (None, md, Some "Model file not found")) /\
    md <> JNull /\ metadata_resolved W md.

(** The specification's reading of the report name: the uploaded name
    without its extension, that is without its last dot and what follows. *)
Definition spec_strip_extension (filename : string) : string :=
  match split "." filename with
  | [whole] => whole
  | pieces => String.concat "." (removelast pieces)
  end.

Definition spec_report_file_name (uploaded_file : UploadedFile) : string :=
  "DR_Report_" ++ spec_strip_extension (name uploaded_file) ++ ".txt".

(** A row agrees with what happened to its file: it carries the file's
    name, and its status is "DR Detected" exactly when the prediction
    returned the DR label without error, "No DR" exactly when it returned
    the other label without error, and "Failed" in every other case. *)
Definition status_agrees (W : World) (model : option (Model W))
    (file : UploadedFile) (row : BatchRow) : Prop :=
  let dr := exists c, item_outcome W model file = Ok (Some "Diabetic_Retinopathy", c, None) in
  let no_dr := exists c, item_outcome W model file = Ok (Some "No_Diabetic_Retinopathy", c, None) in
  Filename row = name file /\
  (Status row = "DR Detected" <-> dr) /\
  (Status row = "No DR" <-> no_dr) /\
  (Status row = "Failed" <-> ~ dr /\ ~ no_dr).

(** ** A concrete world for running the script

    An uploaded file is decoded from its first byte [b]:
    no byte at all is an unreadable file; otherwise the image is a
    640x480 grayscale picture on which the network answers [b / 10].
    Three bytes stand for faults: on [xfd] the network returns an empty
    batch, on [xfe] resizing raises an exception whose message is
    empty (as [MemoryError()] has), on [xff] the forward pass raises. *)
Module Demo.

Record Img : Type := {
  im_mode : string;
  im_size : nat * nat;
  im_tag : Byte.byte
}.

Record Arr : Type := {
  a_shape : list nat;
  a_dtype : string;
  a_tag : Byte.byte
}.

Definition open (file : UploadedFile) : result Img :=
  match getvalue file with
  | [] => Raise "cannot identify image file"
  | b :: _ => Ok {| im_mode := "L"; im_size := (640, 480); im_tag := b |}
  end.

Definition bands (m : string) : nat :=
  if m =? "RGB" then 3 else if m =? "RGBA" then 4 else 1.

Definition forward (x : option Arr) : result (list (list Q)) :=
  match x with
  | None => Raise "Unrecognized data type: x=None (of type <class 'NoneType'>)"
  | Some a =>
      match a_tag a with
      | Byte.xff => Raise "Graph execution error"
      | Byte.xfd => Ok []
      | b => Ok [[ (Z.of_N (Byte.to_N b) # 10)%Q ]]
      end
  end.

Definition nl : string := String (ascii_of_nat 10) EmptyString.

(** [fs] lists the paths that exist; every JSON file holds [meta]. *)
Definition world (fs : list string) (meta : result json) : World :=
  {| Model := unit;
     Image := Img;
     ndarray := Arr;
     path_exists := fun p => existsb (String.eqb p) fs;
     load_model := fun p =>
       if p =? "models/dr_model_final.h5" then Raise "file signature not found"
       else Ok tt;
     json_load := fun _ => meta;
     Image_open := open;
     mode := im_mode;
     size := im_size;
     convert := fun im m =>
       Ok {| im_mode := m; im_size := im_size im; im_tag := im_tag im |};
     resize := fun im sz _ =>
       match im_tag im with
       | Byte.xfe => Raise EmptyString
       | _ => Ok {| im_mode := im_mode im; im_size := sz; im_tag := im_tag im |}
       end;
     np_array := fun im =>
       Ok {| a_shape := [snd (im_size im); fst (im_size im); bands (im_mode im)];
             a_dtype := "float32";
             a_tag := im_tag im |};
     expand_dims := fun a axis =>
       Ok {| a_shape := firstn axis (a_shape a) ++ 1 :: skipn axis (a_shape a);
             a_dtype := a_dtype a;
             a_tag := a_tag a |};
     preprocess_input := fun a => Ok a;
     shape := a_shape;
     dtype := a_dtype;
     predict := fun _ x => forward x;
     to_csv := fun rows =>
       String.concat nl
         ("Filename,Prediction,Confidence,Status"
            :: map (fun r =>
                      String.concat ","
                        [Filename r;
                         match Prediction r with Some l => l | None => EmptyString end;
                         Confidence r; Status r]) rows) |}.

Definition file (n : string) (bytes : list Byte.byte) : UploadedFile :=
  {| name := n; getvalue := bytes |}.

(** A deployment whose only model file is one that Keras cannot read. *)
Definition corrupt : World :=
  world ["models/dr_model_final.h5"] (Raise "No such file or directory").

(** A deployment with the model present and no metadata file. *)
Definition deployed : World := world ["models/best_model.h5"] (Raise "No such file or directory").

(** A deployment where only the metadata file is in place. *)
Definition metadata_only : World :=
  world ["models/metadata.json"]
        (Ok (JDict [("architecture", JStr "EfficientNetB3")])).

Definition picture (b : Byte.byte) : Image deployed :=
  {| im_mode := "L"; im_size := (640, 480); im_tag := b |}.

(** A deployment whose second candidate is unreadable and whose third
    candidate is a good model. *)
Definition shadowed : World :=
  world ["models/dr_model_final.h5"; "best_model.h5"] (Raise "No such file or directory").

(** A deployment with a model and one metadata file holding [md]. *)
Definition with_metadata (md : result json) : World :=
  world ["models/best_model.h5"; "metadata.json"] md.

(** [deployed], except that every image file turns out truncated once its
    pixels are needed. *)
Definition truncated : World :=
  {| Model := Model deployed;
     Image := Image deployed;
     ndarray := ndarray deployed;
     path_exists := path_exists deployed;
     load_model := load_model deployed;
     json_load := json_load deployed;
     Image_open := Image_open deployed;
     mode := @mode deployed;
     size := @size deployed;
     convert := fun _ _ => Raise "image file is truncated (0 bytes not processed)";
     resize := fun _ _ _ => Raise "image file is truncated (0 bytes not processed)";
     np_array := np_array deployed;
     expand_dims := expand_dims deployed;
     preprocess_input := preprocess_input deployed;
     shape := @shape deployed;
     dtype := @dtype deployed;
     predict := predict deployed;
     to_csv := to_csv deployed |}.

Definition builtins : Builtins :=
  {| repr := fun _ => "<value>";
     number_type := fun q => if (Zpos (Qden q) =? 1)%Z then "int" else "float" |}.

End Demo.

(** ** Running the script on concrete inputs *)

Example run_load_corrupt :
  load_trained_model Demo.corrupt
  = ([EvExists "models/best_model.h5"; EvExists "models/dr_model_final.h5";
      EvLoadModel "models/dr_model_final.h5"],
     Ok (None, JNull, Some "file signature not found")).
Proof. reflexivity. Qed.

Example run_predict_08 :
  predict_image Demo.deployed (Some tt) (Demo.picture Byte.x08)
  = ([EvConvert "RGB"; EvResize (224, 224) "LANCZOS"; EvArray; EvExpandDims 0;
      EvPreprocessInput; EvPredict],
     Ok (Some "No_Diabetic_Retinopathy", Some (8 # 10)%Q, None)).
Proof. reflexivity. Qed.

Example run_predict_05 :
  result_of (predict_image Demo.deployed (Some tt) (Demo.picture Byte.x05))
  = Ok (Some "Diabetic_Retinopathy", Some (1 - (5 # 10))%Q, None).
Proof. reflexivity. Qed.

Example run_format_80 : format_2f ((8 # 10) * 100)%Q = "80.00".
Proof. reflexivity. Qed.

Example run_format_round :
  format_2f (125 # 1000)%Q = "0.12" /\ format_2f (375 # 1000)%Q = "0.38" /\
  format_2f (99996 # 1000)%Q = "100.00".
Proof. repeat split. Qed.

Example run_batch_scenario :
  let files := [Demo.file "a.jpg" [Byte.x09]; Demo.file "b.jpg" [Byte.x02];
                Demo.file "c.jpg" [Byte.xff]] in
  exists tr results,
    process_batch Demo.deployed (Some tt) files = (tr, Ok results) /\
    map Status results = ["No DR"; "DR Detected"; "Failed"] /\
    map Confidence results = ["90.00%"; "80.00%"; "N/A"] /\
    summary results = {| total := 3; positive := 1; negative := 1; failed := 1 |}.
Proof. do 2 eexists. vm_compute. repeat split. Qed.

Example run_batch_csv :
  exists tr results s,
    batch_export Demo.deployed (Some tt)
      [Demo.file "a.jpg" [Byte.x09]; Demo.file "b.jpg" []] = (tr, Ok (results, s,
       String.concat Demo.nl
         ["Filename,Prediction,Confidence,Status";
          "a.jpg,No_Diabetic_Retinopathy,90.00%,No DR";
          "b.jpg,Error,N/A,Failed"])).
Proof. do 3 eexists. reflexivity. Qed.

Example run_sidebar_default :
  sidebar_stats Demo.builtins default_metadata
  = ([], Ok (Some ("96.0%", "0.990", "**Model:** EfficientNetB3"))).
Proof. reflexivity. Qed.

Example run_format_fixed :
  format_fixed 1 (25 # 100)%Q = "0.2" /\ format_fixed 1 (96 # 1)%Q = "96.0" /\
  format_fixed 3 (-1 # 3)%Q = "-0.333" /\ format_fixed 0 (25 # 10)%Q = "2" /\
  format_fixed 2 (8 # 10 * 100)%Q = format_2f (8 # 10 * 100)%Q.
Proof. repeat split. Qed.

Example run_strip_extension :
  spec_strip_extension "left_eye.png" = "left_eye" /\
  spec_strip_extension "scan.v2.jpg" = "scan.v2" /\
  spec_strip_extension "noext" = "noext".
Proof. repeat split. Qed.

Example run_split :
  split "." "a.b" = ["a"; "b"] /\
  split "." EmptyString = [EmptyString] /\
  split "." "a." = ["a"; EmptyString].
Proof. repeat split. Qed.

(** * Proofs *)

(** ** Preprocessor and predictor never raise *)

(** Case analysis on every oracle outcome and test in the goal. *)
Ltac oracle_cases :=
  repeat match goal with
         | |- context [match ?x with Ok _ => _ | Raise _ => _ end] =>
             destruct x eqn:?; cbn
         | |- context [if ?b then _ else _] => destruct b eqn:?; cbn
         end.

(** [preprocess_image] catches whatever its body raises: it returns either
    a tensor and no error, or no tensor and the message. *)
Lemma preprocess_image_total W (image : Image W) sz :
  exists tr t e, preprocess_image W image sz = (tr, Ok (t, e)) /\
    ((exists a, t = Some a /\ e = None) \/ (t = None /\ exists msg, e = Some msg)).
Proof.
  unfold preprocess_image, try_except, bind, call, ret. cbn.
  oracle_cases; do 3 eexists; (split; [reflexivity|]); eauto.
Qed.

(** [predict_image] catches whatever its body raises, and returns a triple
    of one of three shapes. *)
Lemma predict_image_total W model (image : Image W) :
  exists tr v, predict_image W model image = (tr, Ok v) /\ prediction_shape v.
Proof.
  destruct model as [m|]; cbn.
  2:{ do 2 eexists; split; [reflexivity | constructor]. }
  destruct (preprocess_image_total W image (224, 224)) as (tr & t & e & Hpre & _).
  unfold try_except, bind. rewrite Hpre.
  destruct e as [[|c msg]|]; cbn.
  2:{ do 2 eexists; split; [reflexivity | constructor]. }
  all: unfold call, getitem0, bind, ret, raise;
    destruct (predict W m t) as [[|[|p row] rows]|]; cbn;
    try destruct (Qlt_le_dec (1 # 2) p); cbn;
    do 2 eexists; (split; [reflexivity | constructor]).
Qed.

(** A non-empty preprocessing error is handed on as it is, and the forward
    pass is not run. *)
Lemma preprocess_error_propagated W (m : Model W) image tr t e :
  preprocess_image W image (224, 224) = (tr, Ok (t, e)) ->
  truthy e = true ->
  predict_image W (Some m) image = (tr, Ok (None, None, e)).
Proof.
  intros Hpre He. cbn. unfold try_except, bind. rewrite Hpre, He. cbn.
  rewrite app_nil_r. reflexivity.
Qed.

Lemma larger_spec (a b : Q) :
  ((b < a)%Q -> larger a b = a) /\ ((a <= b)%Q -> larger a b = b).
Proof.
  unfold larger. destruct (Qlt_le_dec b a) as [H|H]; split; intros H'; try reflexivity.
  - exfalso. apply (Qlt_irrefl a). eapply Qle_lt_trans; eassumption.
  - exfalso. apply (Qlt_irrefl a). eapply Qle_lt_trans; eassumption.
Qed.

(** C1: whenever the forward pass yields a scalar [p] in [0,1],
    [predict_image] returns the label "No_Diabetic_Retinopathy" with
    confidence [p] if [p > 0.5], and the label "Diabetic_Retinopathy" with
    confidence [1 - p] if [p <= 0.5] (so also at [p = 0.5]); the confidence
    is the larger of [p] and [1 - p] and lies in [0,1]. *)
Theorem predict_threshold_rule W (m : Model W) image tr t e p row rows :
  preprocess_image W image (224, 224) = (tr, Ok (t, e)) ->
  truthy e = false ->
  predict W m t = Ok ((p :: row) :: rows) ->
  (0 <= p <= 1)%Q ->
  exists label confidence,
    result_of (predict_image W (Some m) image) = Ok (Some label, Some confidence, None) /\
    ((1 # 2 < p)%Q -> label = "No_Diabetic_Retinopathy" /\ confidence = p) /\
    ((p <= 1 # 2)%Q -> label = "Diabetic_Retinopathy" /\ confidence = (1 - p)%Q) /\
    confidence = larger p (1 - p) /\
    (0 <= confidence <= 1)%Q.
Proof.
  intros Hpre He Hout [Hlo Hhi].
  cbn. unfold try_except, bind. rewrite Hpre, He. unfold call. rewrite Hout. cbn.
  destruct (Qlt_le_dec (1 # 2) p) as [Hgt|Hle]; cbn; do 2 eexists;
    (split; [reflexivity|]).
  - split; [auto|]. split; [intros Hle; exfalso; lra|].
    split; [|lra]. symmetry. apply larger_spec. lra.
  - split; [intros Hgt; exfalso; lra|]. split; [auto|].
    split; [|lra]. symmetry. apply larger_spec. lra.
Qed.

Lemma predict_threshold_rule_witness :
  exists label confidence,
    result_of (predict_image Demo.deployed (Some tt) (Demo.picture Byte.x05))
      = Ok (Some label, Some confidence, None) /\
    ((1 # 2 < 5 # 10)%Q -> label = "No_Diabetic_Retinopathy" /\ confidence = (5 # 10)%Q) /\
    ((5 # 10 <= 1 # 2)%Q -> label = "Diabetic_Retinopathy" /\ confidence = (1 - (5 # 10))%Q) /\
    confidence = larger (5 # 10) (1 - (5 # 10)) /\
    (0 <= confidence <= 1)%Q.
Proof.
  eapply (predict_threshold_rule Demo.deployed tt (Demo.picture Byte.x05)).
  - reflexivity.
  - reflexivity.
  - reflexivity.
  - split; discriminate.
Defined.

(** C7: without a model handle, [predict_image] returns the error
    "Model not loaded" with null label and confidence, and its call log is
    empty: neither preprocessing nor inference is attempted. *)
Theorem predict_without_model W (image : Image W) :
  predict_image W None image = ([], Ok (None, None, Some "Model not loaded")).
Proof. reflexivity. Qed.

(** ** The batch loop *)

Lemma item_outcome_shape W model file v :
  item_outcome W model file = Ok v -> prediction_shape v.
Proof.
  unfold item_outcome. destruct (Image_open W file) as [image|]; [|discriminate].
  destruct (predict_image_total W model image) as (tr & v' & Hrun & Hshape).
  unfold result_of. rewrite Hrun. cbn. congruence.
Qed.

Lemma batch_step_row W model results file :
  exists tr, batch_step W model results file = (tr, Ok (results ++ [row_of W model file])).
Proof.
  unfold batch_step, row_of, item_outcome, result_of, try_except, bind, call.
  destruct (Image_open W file) as [image|msg]; cbn.
  2:{ eexists; reflexivity. }
  destruct (predict_image W model image) as [tr [[[label c] e]|msg]]; cbn.
  2:{ eexists; reflexivity. }
  destruct (truthy e); cbn.
  - destruct c; eexists; reflexivity.
  - destruct c; cbn; eexists; reflexivity.
Qed.

Lemma batch_loop_rows W model files : forall results,
  exists tr, batch_loop W model results files
             = (tr, Ok (results ++ map (row_of W model) files)).
Proof.
  induction files as [|file rest IH]; intros results; cbn.
  - rewrite app_nil_r. eexists; reflexivity.
  - destruct (batch_step_row W model results file) as [tr1 H1].
    destruct (IH (results ++ [row_of W model file])) as [tr2 H2].
    unfold bind. rewrite H1, H2. rewrite <- app_assoc. eexists; reflexivity.
Qed.

Lemma process_batch_rows W model files :
  exists tr, process_batch W model files = (tr, Ok (map (row_of W model) files)).
Proof. apply (batch_loop_rows W model files []). Qed.

(** The three ways a row comes about. *)
Lemma row_of_cases W model file :
  (exists c, item_outcome W model file = Ok (Some "Diabetic_Retinopathy", Some c, None) /\
             item_fails W model file = false /\
             row_of W model file =
               {| Filename := name file; Prediction := Some "Diabetic_Retinopathy";
                  Confidence := format_2f (c * 100)%Q ++ "%"; Status := "DR Detected" |}) \/
  (exists c, item_outcome W model file = Ok (Some "No_Diabetic_Retinopathy", Some c, None) /\
             item_fails W model file = false /\
             row_of W model file =
               {| Filename := name file; Prediction := Some "No_Diabetic_Retinopathy";
                  Confidence := format_2f (c * 100)%Q ++ "%"; Status := "No DR" |}) \/
  (item_fails W model file = true /\
   (forall l c, item_outcome W model file <> Ok (l, c, None)) /\
   row_of W model file = failed_row (name file)).
Proof.
  unfold row_of, item_fails.
  destruct (item_outcome W model file) as [v|msg] eqn:Hout.
  - destruct (item_outcome_shape _ _ _ _ Hout) as [c|c|msg].
    + right; left. exists c. cbn. repeat split.
    + left. exists c. cbn. repeat split.
    + right; right. cbn. repeat split. intros l c; discriminate.
  - right; right. repeat split. intros l c; discriminate.
Qed.

Lemma row_of_agrees W model file : status_agrees W model file (row_of W model file).
Proof.
  unfold status_agrees.
  destruct (row_of_cases W model file)
    as [(c & Hout & _ & ->) | [(c & Hout & _ & ->) | (_ & Hno & ->)]]; cbn.
  - rewrite Hout. split; [reflexivity|]. split; [|split]; split.
    + intros _. eexists; reflexivity.
    + reflexivity.
    + discriminate.
    + intros [c' H']; discriminate.
    + discriminate.
    + intros [Hdr _]. exfalso. apply Hdr. eexists; reflexivity.
  - rewrite Hout. split; [reflexivity|]. split; [|split]; split.
    + discriminate.
    + intros [c' H']; discriminate.
    + intros _. eexists; reflexivity.
    + reflexivity.
    + discriminate.
    + intros [_ Hnd]. exfalso. apply Hnd. eexists; reflexivity.
  - split; [reflexivity|]. split; [|split]; split.
    + discriminate.
    + intros [c H']. exfalso. exact (Hno _ _ H').
    + discriminate.
    + intros [c H']. exfalso. exact (Hno _ _ H').
    + intros _. split; intros [c H']; exact (Hno _ _ H').
    + reflexivity.
Qed.

(** C4: the batch loop finishes on every batch and produces one row per
    uploaded file, in input order; a failing file gets a "Failed" row and
    the loop goes on; each row's status is "DR Detected" iff the prediction
    returned "Diabetic_Retinopathy" without error, "No DR" iff it returned
    "No_Diabetic_Retinopathy" without error, and "Failed" otherwise. *)
Theorem process_batch_one_row_per_image W model files :
  exists tr results,
    process_batch W model files = (tr, Ok results) /\
    length results = length files /\
    map Filename results = map name files /\
    Forall2 (status_agrees W model) files results.
Proof.
  destruct (process_batch_rows W model files) as [tr Hrun].
  exists tr, (map (row_of W model) files). split; [exact Hrun|].
  split; [apply length_map|]. split.
  - rewrite map_map. apply map_ext. intros file.
    apply (row_of_agrees W model file).
  - clear Hrun. induction files as [|file rest IH]; cbn; constructor.
    + apply row_of_agrees.
    + exact IH.
Qed.

Lemma count_status_cons needle row rows :
  count_status needle (row :: rows)
  = (if contains needle (Status row) then 1 else 0) + count_status needle rows.
Proof.
  unfold count_status. cbn. destruct (contains needle (Status row)); reflexivity.
Qed.

Lemma summary_of_rows W model files :
  let s := summary (map (row_of W model) files) in
  failed s = count_fails W model files /\
  positive s + negative s + failed s = length files /\
  total s = length files.
Proof.
  unfold summary, count_fails. cbn [failed positive negative total].
  rewrite length_map.
  induction files as [|file rest (IHf & IHs & _)].
  - repeat split.
  - cbn [map filter length]. rewrite !count_status_cons.
    destruct (row_of_cases W model file)
      as [(c & _ & Hf & ->) | [(c & _ & Hf & ->) | (Hf & _ & ->)]];
      rewrite Hf; cbn [Status failed_row length];
      change (contains "DR Detected" "DR Detected") with true;
      change (contains "No DR" "DR Detected") with false;
      change (contains "Failed" "DR Detected") with false;
      change (contains "DR Detected" "No DR") with false;
      change (contains "No DR" "No DR") with true;
      change (contains "Failed" "No DR") with false;
      change (contains "DR Detected" "Failed") with false;
      change (contains "No DR" "Failed") with false;
      change (contains "Failed" "Failed") with true;
      cbv iota; repeat split; lia.
Qed.

Lemma count_fails_le W model files : count_fails W model files <= length files.
Proof. unfold count_fails. apply filter_length_le. Qed.

(** C2: for a batch of [N] files of which [k] fail (opening raises, or the
    prediction comes back with an error from preprocessing or inference),
    the summary of the produced rows has [failed = k],
    [positive + negative = N - k] and
    [positive + negative + failed = total = N]. *)
Theorem batch_summary_counts W model files :
  exists tr results,
    process_batch W model files = (tr, Ok results) /\
    let s := summary results in
    let N := length files in
    let k := count_fails W model files in
    failed s = k /\
    positive s + negative s = N - k /\
    positive s + negative s + failed s = total s /\
    total s = N.
Proof.
  destruct (process_batch_rows W model files) as [tr Hrun].
  exists tr, (map (row_of W model) files). split; [exact Hrun|].
  destruct (summary_of_rows W model files) as (Hf & Hs & Ht).
  pose proof (count_fails_le W model files) as Hle.
  cbv zeta in *. repeat split; lia.
Qed.

(** C10: the row appended for a failing batch item (opening raised, or
    the prediction returned an error) is the constant failure row: its
    Prediction is "Error" and its Confidence is "N/A"; the row is a function
    of the file name alone, and the CSV text is computed from the rows, so
    no error message reaches the rows or the export. *)
Theorem failed_item_row W model files i file :
  nth_error files i = Some file ->
  item_fails W model file = true ->
  exists tr results row,
    batch_export W model files = (tr, Ok (results, summary results, to_csv W results)) /\
    nth_error results i = Some row /\
    row = failed_row (name file) /\
    Prediction row = Some "Error" /\
    Confidence row = "N/A".
Proof.
  intros Hnth Hfail.
  destruct (process_batch_rows W model files) as [tr Hrun].
  exists (tr ++ []), (map (row_of W model) files), (row_of W model file).
  split; [unfold batch_export, bind; rewrite Hrun; reflexivity|]. split.
  - rewrite nth_error_map, Hnth. reflexivity.
  - destruct (row_of_cases W model file)
      as [(c & _ & Hf & _) | [(c & _ & Hf & _) | (_ & _ & ->)]];
      try congruence.
    repeat split.
Qed.

Lemma failed_item_row_witness :
  exists tr results row,
    batch_export Demo.deployed (Some tt)
      [Demo.file "a.jpg" [Byte.x09]; Demo.file "b.jpg" []; Demo.file "c.jpg" [Byte.xff]]
    = (tr, Ok (results, summary results, to_csv Demo.deployed results)) /\
    nth_error results 2 = Some row /\
    row = failed_row "c.jpg" /\
    Prediction row = Some "Error" /\
    Confidence row = "N/A".
Proof.
  apply (failed_item_row Demo.deployed (Some tt) _ 2 (Demo.file "c.jpg" [Byte.xff]));
    reflexivity.
Defined.

(** ** The model resolver *)

Lemma find_model_path_result W paths :
  result_of (find_model_path W paths) = Ok (first_existing W paths).
Proof.
  unfold result_of, first_existing.
  induction paths as [|p rest IH]; cbn; [reflexivity|].
  destruct (path_exists W p); cbn; [reflexivity|].
  destruct (find_model_path W rest). cbn in *. exact IH.
Qed.

Lemma find_model_path_none W paths :
  (forall p, In p paths -> path_exists W p = false) ->
  find_model_path W paths = (map EvExists paths, Ok None).
Proof.
  induction paths as [|p rest IH]; intros Hno; cbn; [reflexivity|].
  rewrite (Hno p (or_introl eq_refl)). cbn.
  rewrite IH; [reflexivity|]. intros q Hq. apply Hno. right. exact Hq.
Qed.

Lemma find_metadata_none W paths :
  (forall p, In p paths -> path_exists W p = false) ->
  find_metadata W paths = (map EvExists paths, Ok JNull).
Proof.
  induction paths as [|p rest IH]; intros Hno; cbn; [reflexivity|].
  rewrite (Hno p (or_introl eq_refl)). cbn.
  rewrite IH; [reflexivity|]. intros q Hq. apply Hno. right. exact Hq.
Qed.

(** C3, amended: when none of the model candidates exists,
    [load_trained_model] returns a null model, null metadata and the
    error "Model file not found"; the only calls made are the four
    existence probes of the model candidates, so no metadata path is probed
    or parsed. *)
Theorem resolver_without_model W :
  no_model_file W ->
  load_trained_model W
  = (map EvExists possible_paths, Ok (None, JNull, Some "Model file not found")).
Proof.
  intros Hno. unfold load_trained_model, try_except, bind.
  rewrite (find_model_path_none W possible_paths Hno). reflexivity.
Qed.

Lemma no_model_file_metadata_only : no_model_file Demo.metadata_only.
Proof.
  intros p Hp. cbn in Hp.
  repeat (destruct Hp as [<-|Hp]; [reflexivity|]). contradiction.
Qed.

Lemma resolver_without_model_witness :
  load_trained_model Demo.metadata_only
  = (map EvExists possible_paths, Ok (None, JNull, Some "Model file not found")).
Proof.
  apply (resolver_without_model Demo.metadata_only).
  intros p Hp. cbn in Hp.
  repeat (destruct Hp as [<-|Hp]; [reflexivity|]). contradiction.
Defined.

(** C3, as stated, fails: with only the metadata file in place, the model
    candidates are all missing and the metadata file exists and parses, yet
    the metadata returned is null rather than parsed or defaulted. *)
Lemma resolver_without_model_counterexample :
  no_model_file Demo.metadata_only /\
  path_exists Demo.metadata_only "models/metadata.json" = true /\
  (exists md, json_load Demo.metadata_only "models/metadata.json" = Ok md /\ md <> JNull) /\
  ~ spec_resolver_without_model Demo.metadata_only.
Proof.
  split; [exact no_model_file_metadata_only|].
  split; [reflexivity|]. split.
  - eexists. split; [reflexivity | discriminate].
  - intros Hspec.
    destruct (Hspec no_model_file_metadata_only) as (tr & md & Hrun & Hmd & _).
    apply Hmd. vm_compute in Hrun. congruence.
Qed.

(** C8: when the first existing model candidate loads and no metadata
    candidate exists, the metadata returned is exactly the record
    {classes: ["DR", "No_DR"], test_accuracy: 0.96, test_auc: 0.99,
    architecture: "EfficientNetB3"}, with these four keys and no other,
    next to the model and no error. *)
Theorem default_metadata_when_missing W p (m : Model W) :
  first_existing W possible_paths = Some p ->
  load_model W p = Ok m ->
  no_metadata_file W ->
  load_trained_model W
  = (trace_of (find_model_path W possible_paths)
       ++ EvLoadModel p :: map EvExists metadata_paths,
     Ok (Some m,
         JDict [ ("classes", JList [JStr "DR"; JStr "No_DR"]);
                 ("test_accuracy", JNum (96 # 100)%Q);
                 ("test_auc", JNum (99 # 100)%Q);
                 ("architecture", JStr "EfficientNetB3") ],
         None)).
Proof.
  intros Hfirst Hload Hnometa.
  pose proof (find_model_path_result W possible_paths) as Hres.
  rewrite Hfirst in Hres.
  unfold load_trained_model, try_except, bind, trace_of.
  destruct (find_model_path W possible_paths) as [tr r]. cbn in Hres. subst r.
  unfold call. rewrite Hload.
  rewrite (find_metadata_none W metadata_paths Hnometa). reflexivity.
Qed.

Lemma default_metadata_when_missing_witness :
  load_trained_model Demo.deployed
  = ([EvExists "models/best_model.h5"; EvLoadModel "models/best_model.h5";
      EvExists "models/metadata.json"; EvExists "metadata.json"],
     Ok (Some tt,
         JDict [ ("classes", JList [JStr "DR"; JStr "No_DR"]);
                 ("test_accuracy", JNum (96 # 100)%Q);
                 ("test_auc", JNum (99 # 100)%Q);
                 ("architecture", JStr "EfficientNetB3") ],
         None)).
Proof.
  apply (default_metadata_when_missing Demo.deployed "models/best_model.h5" tt).
  - reflexivity.
  - reflexivity.
  - intros q Hq. cbn in Hq.
    repeat (destruct Hq as [<-|Hq]; [reflexivity|]). contradiction.
Defined.

(** ** The preprocessor *)

Lemma demo_contract fs meta : LibraryContract (Demo.world fs meta).
Proof.
  constructor; cbn.
  - intros im m im' H. injection H as <-. split; reflexivity.
  - intros im sz flt im' H. destruct (Demo.im_tag im); try discriminate;
      injection H as <-; split; reflexivity.
  - intros im a H Hmode. injection H as <-. cbn. unfold Demo.bands.
    rewrite Hmode. split; reflexivity.
  - intros a a' H. injection H as <-. split; reflexivity.
  - intros a a' H. injection H as <-. split; reflexivity.
Qed.

(** Whatever tensor comes back has the model's input shape. *)
Lemma preprocess_shape_if_returned W (image : Image W) tr t e :
  LibraryContract W ->
  preprocess_image W image (224, 224) = (tr, Ok (Some t, e)) ->
  shape t = [1; 224; 224; 3] /\ dtype t = "float32" /\ e = None.
Proof.
  intros [Hconv Hres Harr Hexp Hpre].
  unfold preprocess_image, try_except, bind, call, ret.
  destruct (mode image =? "RGB") eqn:Hmode; cbn.
  - apply String.eqb_eq in Hmode.
    destruct (resize W image (224, 224) LANCZOS) as [small|] eqn:E1; cbn; [|discriminate].
    destruct (np_array W small) as [a|] eqn:E2; cbn; [|discriminate].
    destruct (expand_dims W a 0) as [b|] eqn:E3; cbn; [|discriminate].
    destruct (preprocess_input W b) as [c|] eqn:E4; cbn; [|discriminate].
    intros H. injection H as _ <- <-.
    destruct (Hres _ _ _ _ E1) as [Hsz Hmd].
    destruct (Harr _ _ E2) as [Hs2 Hd2]; [congruence|].
    destruct (Hexp _ _ E3) as [Hs3 Hd3].
    destruct (Hpre _ _ E4) as [Hs4 Hd4].
    rewrite Hs4, Hs3, Hs2, Hsz, Hd4, Hd3, Hd2. repeat split.
  - destruct (convert W image "RGB") as [rgb|] eqn:E0; cbn; [|discriminate].
    destruct (resize W rgb (224, 224) LANCZOS) as [small|] eqn:E1; cbn; [|discriminate].
    destruct (np_array W small) as [a|] eqn:E2; cbn; [|discriminate].
    destruct (expand_dims W a 0) as [b|] eqn:E3; cbn; [|discriminate].
    destruct (preprocess_input W b) as [c|] eqn:E4; cbn; [|discriminate].
    intros H. injection H as _ <- <-.
    destruct (Hconv _ _ _ E0) as [Hm0 _].
    destruct (Hres _ _ _ _ E1) as [Hsz Hmd].
    destruct (Harr _ _ E2) as [Hs2 Hd2]; [congruence|].
    destruct (Hexp _ _ E3) as [Hs3 Hd3].
    destruct (Hpre _ _ E4) as [Hs4 Hd4].
    rewrite Hs4, Hs3, Hs2, Hsz, Hd4, Hd3, Hd2. repeat split.
Qed.

(** C6: for every valid image, whatever its size and mode,
    [preprocess_image] returns a float32 tensor of shape (1, 224, 224, 3):
    a non-RGB image is converted to RGB, the image is resized straight to
    224x224 (the one PIL call after the conversion; nothing crops or pads),
    and a leading axis of size 1 is added. *)
Theorem preprocess_output_shape W (image : Image W) :
  LibraryContract W ->
  valid_image W image ->
  exists t,
    preprocess_image W image (224, 224)
    = ((if mode image =? "RGB" then [] else [EvConvert "RGB"])
         ++ [EvResize (224, 224) LANCZOS; EvArray; EvExpandDims 0; EvPreprocessInput],
       Ok (Some t, None)) /\
    shape t = [1; 224; 224; 3] /\
    dtype t = "float32".
Proof.
  intros HC (rgb & small & a & b & c & H0 & H1 & H2 & H3 & H4).
  assert (Hrun : preprocess_image W image (224, 224)
    = ((if mode image =? "RGB" then [] else [EvConvert "RGB"])
         ++ [EvResize (224, 224) LANCZOS; EvArray; EvExpandDims 0; EvPreprocessInput],
       Ok (Some c, None))).
  { unfold preprocess_image, try_except, bind, call, ret.
    destruct (mode image =? "RGB"); cbn.
    - subst rgb. rewrite H1. cbn. rewrite H2. cbn. rewrite H3. cbn. rewrite H4. reflexivity.
    - rewrite H0. cbn. rewrite H1. cbn. rewrite H2. cbn. rewrite H3. cbn. rewrite H4.
      reflexivity. }
  exists c. split; [exact Hrun|].
  destruct (preprocess_shape_if_returned W image _ _ _ HC Hrun) as (Hs & Hd & _).
  split; assumption.
Qed.

Lemma preprocess_output_shape_witness :
  exists t,
    preprocess_image Demo.deployed (Demo.picture Byte.x08) (224, 224)
    = ([EvConvert "RGB"; EvResize (224, 224) LANCZOS; EvArray; EvExpandDims 0;
        EvPreprocessInput],
       Ok (Some t, None)) /\
    shape t = [1; 224; 224; 3] /\
    dtype t = "float32".
Proof.
  apply (preprocess_output_shape Demo.deployed (Demo.picture Byte.x08)).
  - apply demo_contract.
  - unfold valid_image. cbn. do 5 eexists. repeat split.
Defined.

(** ** Download names *)

Lemma split_nonempty sep s : split sep s <> [].
Proof.
  destruct s as [|c rest]; cbn; [discriminate|].
  destruct (Ascii.eqb c sep); [discriminate|].
  destruct (split sep rest); discriminate.
Qed.

(** With at most one dot in the name, the first piece is the name
    without its extension. *)
Lemma report_file_name_single_extension uploaded_file :
  length (split "." (name uploaded_file)) <= 2 ->
  report_file_name uploaded_file = spec_report_file_name uploaded_file.
Proof.
  unfold report_file_name, spec_report_file_name, spec_strip_extension.
  destruct (split "." (name uploaded_file)) as [|a [|b [|c rest]]]; cbn; intros H.
  - reflexivity.
  - reflexivity.
  - reflexivity.
  - lia.
Qed.

(** C9: on the upload "scan.v2.jpg" the report is offered as
    "DR_Report_scan.txt", not as "DR_Report_scan.v2.txt": the name is cut at
    its first dot, not stripped of its extension.  The batch export is
    offered as "batch_dr_analysis.csv". *)
Theorem report_file_name_second_dot :
  let uploaded_file := Demo.file "scan.v2.jpg" [Byte.x08] in
  report_file_name uploaded_file = "DR_Report_scan.txt" /\
  spec_report_file_name uploaded_file = "DR_Report_scan.v2.txt" /\
  report_file_name uploaded_file <> spec_report_file_name uploaded_file /\
  batch_file_name = "batch_dr_analysis.csv".
Proof. repeat split. discriminate. Qed.

(** C5: on an image whose resizing raises an exception with an empty
    message, [preprocess_image] returns the error string [''], which
    [predict_image] does not hand on: [if error:] takes it for no error, the
    forward pass runs on [None], and the caller receives the error of that
    call instead. *)
Theorem empty_preprocess_error_not_propagated :
  let image := Demo.picture Byte.xfe in
  preprocess_image Demo.deployed image (224, 224)
  = ([EvConvert "RGB"; EvResize (224, 224) LANCZOS], Ok (None, Some EmptyString)) /\
  predict_image Demo.deployed (Some tt) image
  = ([EvConvert "RGB"; EvResize (224, 224) LANCZOS; EvPredict],
     Ok (None, None,
         Some "Unrecognized data type: x=None (of type <class 'NoneType'>)")).
Proof. split; reflexivity. Qed.

(** * Further properties of the script *)

(** ** The resolver, case by case *)

Lemma first_existing_split W paths p :
  first_existing W paths = Some p ->
  exists before after,
    paths = before ++ p :: after /\
    (forall q, In q before -> path_exists W q = false) /\
    path_exists W p = true.
Proof.
  unfold first_existing. induction paths as [|a rest IH]; cbn; [discriminate|].
  destruct (path_exists W a) eqn:Ha.
  - intros H. injection H as <-. exists [], rest. repeat split; [|exact Ha].
    intros q [].
  - intros H. destruct (IH H) as (before & after & -> & Hno & Hp).
    exists (a :: before), after. repeat split; [|exact Hp].
    intros q [<-|Hq]; [exact Ha | exact (Hno q Hq)].
Qed.

Lemma find_model_path_split W before p after :
  (forall q, In q before -> path_exists W q = false) ->
  path_exists W p = true ->
  find_model_path W (before ++ p :: after)
  = (map EvExists before ++ [EvExists p], Ok (Some p)).
Proof.
  intros Hno Hp. induction before as [|a rest IH]; cbn.
  - rewrite Hp. reflexivity.
  - rewrite (Hno a (or_introl eq_refl)). cbn.
    rewrite IH; [reflexivity|]. intros q Hq. apply Hno. right. exact Hq.
Qed.

Lemma find_metadata_split W before q after :
  (forall r, In r before -> path_exists W r = false) ->
  path_exists W q = true ->
  find_metadata W (before ++ q :: after)
  = (map EvExists before ++ [EvExists q; EvJsonLoad q], json_load W q).
Proof.
  intros Hno Hq. induction before as [|a rest IH]; cbn.
  - rewrite Hq. reflexivity.
  - rewrite (Hno a (or_introl eq_refl)). cbn.
    rewrite IH; [reflexivity|]. intros r Hr. apply Hno. right. exact Hr.
Qed.

(** The metadata loop either finds no file, or parses the first file that
    exists. *)
Lemma find_metadata_cases W paths :
  (first_existing W paths = None /\
   find_metadata W paths = (map EvExists paths, Ok JNull)) \/
  (exists before q after,
     first_existing W paths = Some q /\
     paths = before ++ q :: after /\
     find_metadata W paths
     = (map EvExists before ++ [EvExists q; EvJsonLoad q], json_load W q)).
Proof.
  destruct (first_existing W paths) as [q|] eqn:Hfirst.
  - right. destruct (first_existing_split W paths q Hfirst)
      as (before & after & Heq & Hno & Hq).
    exists before, q, after. split; [reflexivity|]. split; [exact Heq|].
    rewrite Heq. apply find_metadata_split; assumption.
  - left. split; [reflexivity|]. apply find_metadata_none.
    intros p Hp. unfold first_existing in Hfirst.
    exact (find_none _ _ Hfirst p Hp).
Qed.

(** What [load_trained_model] does once the first existing candidate [p]
    is known. *)
Lemma load_trained_model_found W before p after :
  possible_paths = before ++ p :: after ->
  (forall q, In q before -> path_exists W q = false) ->
  path_exists W p = true ->
  load_trained_model W
  = match load_model W p with
    | Raise e => (map EvExists before ++ [EvExists p; EvLoadModel p],
                  Ok (None, JNull, Some e))
    | Ok m =>
        match find_metadata W metadata_paths with
        | (tr, Ok md) =>
            (map EvExists before ++ [EvExists p; EvLoadModel p] ++ tr,
             Ok (Some m, if is_None md then default_metadata else md, None))
        | (tr, Raise e) =>
            (map EvExists before ++ [EvExists p; EvLoadModel p] ++ tr,
             Ok (None, JNull, Some e))
        end
    end.
Proof.
  intros Heq Hno Hp. unfold load_trained_model.
  rewrite Heq, (find_model_path_split W before p after Hno Hp).
  unfold try_except, bind, call, ret.
  destruct (load_model W p) as [m|e].
  - destruct (find_metadata W metadata_paths) as [tr [md|e]]; cbn;
      rewrite <- ?app_assoc; cbn; rewrite ?app_nil_r; reflexivity.
  - cbn. rewrite app_nil_r, <- app_assoc. reflexivity.
Qed.

Lemma load_trained_model_with_metadata_file W p (m : Model W) q :
  first_existing W possible_paths = Some p ->
  load_model W p = Ok m ->
  first_existing W metadata_paths = Some q ->
  result_of (load_trained_model W)
  = match json_load W q with
    | Ok md => Ok (Some m, if is_None md then default_metadata else md, None)
    | Raise e => Ok (None, JNull, Some e)
    end.
Proof.
  intros Hp Hm Hq.
  destruct (first_existing_split W _ _ Hp) as (before & after & Heq & Hno & Hex).
  rewrite (load_trained_model_found W before p after Heq Hno Hex), Hm.
  destruct (find_metadata_cases W metadata_paths)
    as [[Hnone _] | (mb & q' & ma & Hq' & _ & ->)]; [congruence|].
  assert (q' = q) as -> by congruence.
  destruct (json_load W q); reflexivity.
Qed.

Lemma filter_load_exists paths : filter is_load_event (map EvExists paths) = [].
Proof. induction paths; [reflexivity | exact IHpaths]. Qed.

(** X1: [load_trained_model] never raises, and its triple has one of two
    forms: a model with metadata that is not null and no error, or no
    model, null metadata and an error message. *)
Theorem load_trained_model_outcome W :
  exists tr,
    (exists m md, load_trained_model W = (tr, Ok (Some m, md, None)) /\ md <> JNull) \/
    (exists e, load_trained_model W = (tr, Ok (None, JNull, Some e))).
Proof.
  destruct (first_existing W possible_paths) as [p|] eqn:Hfirst.
  - destruct (first_existing_split W _ _ Hfirst) as (before & after & Heq & Hno & Hex).
    rewrite (load_trained_model_found W before p after Heq Hno Hex).
    destruct (load_model W p) as [m|e].
    + destruct (find_metadata W metadata_paths) as [tr [md|e]]; eexists.
      * left. exists m. eexists. split; [reflexivity|].
        destruct md; cbn; discriminate.
      * right. eexists. reflexivity.
    + eexists. right. eexists. reflexivity.
  - eexists. right. eexists. unfold load_trained_model.
    rewrite (find_model_path_none W possible_paths); [reflexivity|].
    intros p Hp. exact (find_none _ _ Hfirst p Hp).
Qed.

(** X2: when the first candidate that exists cannot be loaded, the
    resolver reports that failure and stops: the candidates after it are
    not probed, no other load is tried and no metadata path is touched. *)
Theorem load_failure_is_final W before p after e :
  possible_paths = before ++ p :: after ->
  (forall q, In q before -> path_exists W q = false) ->
  path_exists W p = true ->
  load_model W p = Raise e ->
  load_trained_model W
  = (map EvExists before ++ [EvExists p; EvLoadModel p], Ok (None, JNull, Some e)).
Proof.
  intros Heq Hno Hex Hload.
  rewrite (load_trained_model_found W before p after Heq Hno Hex), Hload.
  reflexivity.
Qed.

Lemma load_failure_is_final_witness :
  load_trained_model Demo.shadowed
  = ([EvExists "models/best_model.h5"; EvExists "models/dr_model_final.h5";
      EvLoadModel "models/dr_model_final.h5"],
     Ok (None, JNull, Some "file signature not found")).
Proof.
  apply (load_failure_is_final Demo.shadowed ["models/best_model.h5"]
           "models/dr_model_final.h5" ["best_model.h5"; "dr_model_final.h5"]).
  - reflexivity.
  - intros q [<-|[]]. reflexivity.
  - reflexivity.
  - reflexivity.
Defined.

(** X3: a model that [load_trained_model] returns is the one loaded from
    the first candidate that exists, and that load is the only one made. *)
Theorem loaded_model_is_first_existing W tr (m : Model W) md :
  load_trained_model W = (tr, Ok (Some m, md, None)) ->
  exists p,
    first_existing W possible_paths = Some p /\
    load_model W p = Ok m /\
    filter is_load_event tr = [EvLoadModel p].
Proof.
  intros Hrun.
  destruct (first_existing W possible_paths) as [p|] eqn:Hfirst.
  - exists p. split; [reflexivity|].
    destruct (first_existing_split W _ _ Hfirst) as (before & after & Heq & Hno & Hex).
    rewrite (load_trained_model_found W before p after Heq Hno Hex) in Hrun.
    destruct (load_model W p) as [m'|e]; [|discriminate].
    destruct (find_metadata_cases W metadata_paths)
      as [[_ Hmeta] | (mb & q & ma & _ & _ & Hmeta)]; rewrite Hmeta in Hrun.
    + injection Hrun as <- <- _. split; [reflexivity|].
      rewrite filter_app, filter_load_exists. reflexivity.
    + destruct (json_load W q) as [md'|e]; [|discriminate].
      injection Hrun as <- <- _. split; [reflexivity|].
      rewrite filter_app, filter_load_exists. cbn.
      rewrite filter_app, filter_load_exists. reflexivity.
  - exfalso. unfold load_trained_model in Hrun.
    rewrite (find_model_path_none W possible_paths) in Hrun; [discriminate|].
    intros p Hp. exact (find_none _ _ Hfirst p Hp).
Qed.

Lemma loaded_model_is_first_existing_witness :
  exists p,
    first_existing Demo.deployed possible_paths = Some p /\
    load_model Demo.deployed p = Ok tt /\
    filter is_load_event
      [EvExists "models/best_model.h5"; EvLoadModel "models/best_model.h5";
       EvExists "models/metadata.json"; EvExists "metadata.json"]
    = [EvLoadModel p].
Proof.
  apply (loaded_model_is_first_existing Demo.deployed _ tt default_metadata).
  reflexivity.
Defined.

(** X4: when the model loads but the first metadata file that exists
    cannot be read or parsed, the resolver returns no model at all: the
    loaded model is dropped and the parse error is the result. *)
Theorem metadata_failure_discards_model W p (m : Model W) q e :
  first_existing W possible_paths = Some p ->
  load_model W p = Ok m ->
  first_existing W metadata_paths = Some q ->
  json_load W q = Raise e ->
  result_of (load_trained_model W) = Ok (None, JNull, Some e).
Proof.
  intros Hp Hm Hq Hjson.
  rewrite (load_trained_model_with_metadata_file W p m q Hp Hm Hq), Hjson.
  reflexivity.
Qed.

Lemma metadata_failure_discards_model_witness :
  result_of (load_trained_model
               (Demo.with_metadata (Raise "Expecting value: line 1 column 1 (char 0)")))
  = Ok (None, JNull, Some "Expecting value: line 1 column 1 (char 0)").
Proof.
  apply (metadata_failure_discards_model
           (Demo.with_metadata (Raise "Expecting value: line 1 column 1 (char 0)"))
           "models/best_model.h5" tt "metadata.json"); reflexivity.
Defined.

(** X5: when the model loads, the metadata returned is whatever the first
    existing metadata file parses to, of any JSON type and with any keys,
    as long as it is not null; nothing checks or completes it. *)
Theorem metadata_taken_as_parsed W p (m : Model W) q md :
  first_existing W possible_paths = Some p ->
  load_model W p = Ok m ->
  first_existing W metadata_paths = Some q ->
  json_load W q = Ok md ->
  md <> JNull ->
  result_of (load_trained_model W) = Ok (Some m, md, None).
Proof.
  intros Hp Hm Hq Hjson Hmd.
  rewrite (load_trained_model_with_metadata_file W p m q Hp Hm Hq), Hjson.
  destruct md; cbn; try reflexivity. contradiction.
Qed.

Lemma metadata_taken_as_parsed_witness :
  result_of (load_trained_model (Demo.with_metadata (Ok (JList [JStr "DR"]))))
  = Ok (Some tt, JList [JStr "DR"], None).
Proof.
  apply (metadata_taken_as_parsed (Demo.with_metadata (Ok (JList [JStr "DR"])))
           "models/best_model.h5" tt "metadata.json");
    try reflexivity. discriminate.
Defined.

(** X6: a metadata file that holds JSON null counts as no metadata: the
    default record is returned with the model. *)
Theorem null_metadata_file_gives_default W p (m : Model W) q :
  first_existing W possible_paths = Some p ->
  load_model W p = Ok m ->
  first_existing W metadata_paths = Some q ->
  json_load W q = Ok JNull ->
  result_of (load_trained_model W) = Ok (Some m, default_metadata, None).
Proof.
  intros Hp Hm Hq Hjson.
  rewrite (load_trained_model_with_metadata_file W p m q Hp Hm Hq), Hjson.
  reflexivity.
Qed.

Lemma null_metadata_file_gives_default_witness :
  result_of (load_trained_model (Demo.with_metadata (Ok JNull)))
  = Ok (Some tt, default_metadata, None).
Proof.
  apply (null_metadata_file_gives_default (Demo.with_metadata (Ok JNull))
           "models/best_model.h5" tt "metadata.json"); reflexivity.
Defined.

(** ** Preprocessor and predictor, case by case *)

Lemma preprocess_trace W (image : Image W) sz :
  filter is_open_event (trace_of (preprocess_image W image sz)) = [] /\
  filter is_predict_event (trace_of (preprocess_image W image sz)) = [].
Proof.
  unfold preprocess_image, try_except, bind, call, ret, trace_of. cbn.
  oracle_cases; split; reflexivity.
Qed.

(** What [predict_image] returns, with the range of the confidence. *)
Lemma predict_image_cases W model (image : Image W) :
  exists tr v,
    predict_image W model image = (tr, Ok v) /\
    ((exists c, v = (Some "No_Diabetic_Retinopathy", Some c, None) /\ (1 # 2 < c)%Q) \/
     (exists c, v = (Some "Diabetic_Retinopathy", Some c, None) /\ (1 # 2 <= c)%Q) \/
     (exists msg, v = (None, None, Some msg))) /\
    filter is_open_event tr = [] /\
    length (filter is_predict_event tr) <= 1.
Proof.
  destruct model as [m|]; cbn.
  2:{ do 2 eexists. split; [reflexivity|]. split; [|split; cbn; auto].
      right; right. eexists; reflexivity. }
  destruct (preprocess_trace W image (224, 224)) as [Hopen Hpred].
  destruct (preprocess_image_total W image (224, 224)) as (tr & t & e & Hpre & _).
  unfold try_except, bind. rewrite Hpre in *. unfold trace_of in *. cbn in Hopen, Hpred.
  destruct e as [[|c msg]|]; cbn.
  2:{ do 2 eexists. split; [reflexivity|]. rewrite app_nil_r, Hopen, Hpred.
      split; [|split; cbn; auto]. right; right. eexists; reflexivity. }
  all: unfold call, getitem0, bind, ret, raise;
    destruct (predict W m t) as [[|[|p row] rows]|]; cbn;
    try destruct (Qlt_le_dec (1 # 2) p) as [Hgt|Hle]; cbn;
    do 2 eexists; (split; [reflexivity|]);
    rewrite ?app_nil_r, ?filter_app, ?Hopen, ?Hpred; cbn;
    (split; [|split; auto]).
  all: try (right; right; eexists; reflexivity).
  all: try (left; eexists; split; [reflexivity | exact Hgt]).
  all: right; left; eexists; (split; [reflexivity | lra]).
Qed.

(** X7: [preprocess_image] never raises, for any target size: it returns
    either a tensor and no error, or no tensor and the message of the
    exception that stopped it, that is the message raised by the first
    of its library calls that fails. *)
Theorem preprocess_image_never_raises W (image : Image W) target_size :
  exists tr,
    (exists t, preprocess_image W image target_size = (tr, Ok (Some t, None))) \/
    (exists msg,
       preprocess_image W image target_size = (tr, Ok (None, Some msg)) /\
       first_failure W image target_size msg).
Proof.
  unfold preprocess_image, first_failure, try_except, bind, call, ret.
  destruct (mode image =? "RGB") eqn:Hmode; cbn.
  - destruct (resize W image target_size LANCZOS) as [small|m1] eqn:E1; cbn.
    2:{ eexists. right. exists m1. split; [reflexivity|]. right.
        exists image. split; [reflexivity|]. left. assumption. }
    destruct (np_array W small) as [a|m2] eqn:E2; cbn.
    2:{ eexists. right. exists m2. split; [reflexivity|]. right.
        exists image. split; [reflexivity|]. right.
        exists small. split; [assumption|]. left. assumption. }
    destruct (expand_dims W a 0) as [b|m3] eqn:E3; cbn.
    2:{ eexists. right. exists m3. split; [reflexivity|]. right.
        exists image. split; [reflexivity|]. right.
        exists small. split; [assumption|]. right.
        exists a. split; [assumption|]. left. assumption. }
    destruct (preprocess_input W b) as [c|m4] eqn:E4; cbn.
    2:{ eexists. right. exists m4. split; [reflexivity|]. right.
        exists image. split; [reflexivity|]. right.
        exists small. split; [assumption|]. right.
        exists a. split; [assumption|]. right.
        exists b. split; [assumption | assumption]. }
    eexists. left. eexists. reflexivity.
  - destruct (convert W image "RGB") as [rgb|m0] eqn:E0; cbn.
    2:{ eexists. right. exists m0. split; [reflexivity|]. left.
        split; [reflexivity | first [assumption | reflexivity]]. }
    destruct (resize W rgb target_size LANCZOS) as [small|m1] eqn:E1; cbn.
    2:{ eexists. right. exists m1. split; [reflexivity|]. right.
        exists rgb. split; [reflexivity|]. left. assumption. }
    destruct (np_array W small) as [a|m2] eqn:E2; cbn.
    2:{ eexists. right. exists m2. split; [reflexivity|]. right.
        exists rgb. split; [reflexivity|]. right.
        exists small. split; [assumption|]. left. assumption. }
    destruct (expand_dims W a 0) as [b|m3] eqn:E3; cbn.
    2:{ eexists. right. exists m3. split; [reflexivity|]. right.
        exists rgb. split; [reflexivity|]. right.
        exists small. split; [assumption|]. right.
        exists a. split; [assumption|]. left. assumption. }
    destruct (preprocess_input W b) as [c|m4] eqn:E4; cbn.
    2:{ eexists. right. exists m4. split; [reflexivity|]. right.
        exists rgb. split; [reflexivity|]. right.
        exists small. split; [assumption|]. right.
        exists a. split; [assumption|]. right.
        exists b. split; [assumption | assumption]. }
    eexists. left. eexists. reflexivity.
Qed.

(** X8: [predict_image] never raises, with or without a model, and its
    triple carries either a label and a confidence and no error, or an
    error and neither label nor confidence. *)
Theorem predict_image_never_raises W model (image : Image W) :
  exists tr,
    (exists label c,
       predict_image W model image = (tr, Ok (Some label, Some c, None)) /\
       (label = "Diabetic_Retinopathy" \/ label = "No_Diabetic_Retinopathy")) \/
    (exists msg, predict_image W model image = (tr, Ok (None, None, Some msg))).
Proof.
  destruct (predict_image_cases W model image)
    as (tr & v & Hrun & [(c & -> & _) | [(c & -> & _) | (msg & ->)]] & _); exists tr.
  - left. do 2 eexists. split; [exact Hrun | right; reflexivity].
  - left. do 2 eexists. split; [exact Hrun | left; reflexivity].
  - right. exists msg. exact Hrun.
Qed.

(** X9: a preprocessing error with a non-empty message comes back from
    [predict_image] unchanged, and the forward pass is not run. *)
Theorem nonempty_preprocess_error_propagated W (m : Model W) image tr t a msg :
  preprocess_image W image (224, 224) = (tr, Ok (t, Some (String a msg))) ->
  predict_image W (Some m) image = (tr, Ok (None, None, Some (String a msg))) /\
  filter is_predict_event tr = [].
Proof.
  intros Hpre. split.
  - apply (preprocess_error_propagated W m image tr t _ Hpre). reflexivity.
  - pose proof (preprocess_trace W image (224, 224)) as [_ H].
    rewrite Hpre in H. exact H.
Qed.

Lemma nonempty_preprocess_error_propagated_witness :
  predict_image Demo.truncated (Some tt) (Demo.picture Byte.x08)
  = ([EvConvert "RGB"],
     Ok (None, None, Some "image file is truncated (0 bytes not processed)")) /\
  filter is_predict_event [EvConvert "RGB"] = [].
Proof.
  apply (nonempty_preprocess_error_propagated Demo.truncated tt
           (Demo.picture Byte.x08) [EvConvert "RGB"] None).
  reflexivity.
Defined.

(** X10: when preprocessing succeeds and the forward pass raises, the
    message of that exception is the error of the result, next to a null
    label and a null confidence. *)
Theorem inference_failure_reported W (m : Model W) image tr t e msg :
  preprocess_image W image (224, 224) = (tr, Ok (t, e)) ->
  truthy e = false ->
  predict W m t = Raise msg ->
  predict_image W (Some m) image = (tr ++ [EvPredict], Ok (None, None, Some msg)).
Proof.
  intros Hpre He Hout. cbn. unfold try_except, bind.
  rewrite Hpre, He. unfold call. rewrite Hout. cbn. rewrite app_nil_r. reflexivity.
Qed.

Lemma inference_failure_reported_witness :
  predict_image Demo.deployed (Some tt) (Demo.picture Byte.xff)
  = ([EvConvert "RGB"; EvResize (224, 224) LANCZOS; EvArray; EvExpandDims 0;
      EvPreprocessInput] ++ [EvPredict],
     Ok (None, None, Some "Graph execution error")).
Proof.
  eapply (inference_failure_reported Demo.deployed tt (Demo.picture Byte.xff));
    reflexivity.
Defined.

(** X11: when the forward pass returns an array with no row, or a first
    row with no entry, indexing it fails inside the [try] and the result
    is the error "index 0 is out of bounds for axis 0 with size 0". *)
Theorem empty_prediction_reported W (m : Model W) image tr t e rows :
  preprocess_image W image (224, 224) = (tr, Ok (t, e)) ->
  truthy e = false ->
  predict W m t = Ok [] \/ predict W m t = Ok ([] :: rows) ->
  predict_image W (Some m) image
  = (tr ++ [EvPredict],
     Ok (None, None, Some "index 0 is out of bounds for axis 0 with size 0")).
Proof.
  intros Hpre He Hout. cbn. unfold try_except, bind.
  rewrite Hpre, He. unfold call.
  destruct Hout as [-> | ->]; cbn; rewrite app_nil_r; reflexivity.
Qed.

Lemma empty_prediction_reported_witness :
  predict_image Demo.deployed (Some tt) (Demo.picture Byte.xfd)
  = ([EvConvert "RGB"; EvResize (224, 224) LANCZOS; EvArray; EvExpandDims 0;
      EvPreprocessInput] ++ [EvPredict],
     Ok (None, None, Some "index 0 is out of bounds for axis 0 with size 0")).
Proof.
  eapply (empty_prediction_reported Demo.deployed tt (Demo.picture Byte.xfd)
            _ _ _ []).
  - reflexivity.
  - reflexivity.
  - left. reflexivity.
Defined.

(** X12: for every number that the forward pass returns (a finite value,
    in [0,1] or not; NaN is not a number of the model), a confidence that
    [predict_image] reports is at least one half, and a confidence
    reported with "No_Diabetic_Retinopathy" is above one half. *)
Theorem confidence_at_least_half W model (image : Image W) label c e :
  result_of (predict_image W model image) = Ok (label, Some c, e) ->
  (1 # 2 <= c)%Q /\
  (label = Some "No_Diabetic_Retinopathy" -> (1 # 2 < c)%Q).
Proof.
  intros Hrun.
  destruct (predict_image_cases W model image)
    as (tr & v & Heq & [(c' & -> & Hc) | [(c' & -> & Hc) | (msg & ->)]] & _);
    rewrite Heq in Hrun; cbn in Hrun.
  - injection Hrun as <- <- <-. split; [lra | intros _; exact Hc].
  - injection Hrun as <- <- <-. split; [exact Hc | discriminate].
  - discriminate.
Qed.

Lemma confidence_at_least_half_witness :
  (1 # 2 <= 1 - (2 # 10))%Q /\
  (Some "Diabetic_Retinopathy" = Some "No_Diabetic_Retinopathy" -> (1 # 2 < 1 - (2 # 10))%Q).
Proof.
  apply (confidence_at_least_half Demo.deployed (Some tt) (Demo.picture Byte.x02)
           (Some "Diabetic_Retinopathy") (1 - (2 # 10))%Q None).
  reflexivity.
Defined.

(** X13: for any target size (width, height), a tensor returned by
    [preprocess_image] has shape (1, height, width, 3): PIL sizes are
    width first, array shapes are height first. *)
Theorem preprocess_shape_any_target W (image : Image W) w h tr t e :
  LibraryContract W ->
  preprocess_image W image (w, h) = (tr, Ok (Some t, e)) ->
  shape t = [1; h; w; 3] /\ dtype t = "float32" /\ e = None.
Proof.
  intros [Hconv Hres Harr Hexp Hpre].
  unfold preprocess_image, try_except, bind, call, ret.
  destruct (mode image =? "RGB") eqn:Hmode; cbn.
  - apply String.eqb_eq in Hmode.
    destruct (resize W image (w, h) LANCZOS) as [small|] eqn:E1; cbn; [|discriminate].
    destruct (np_array W small) as [a|] eqn:E2; cbn; [|discriminate].
    destruct (expand_dims W a 0) as [b|] eqn:E3; cbn; [|discriminate].
    destruct (preprocess_input W b) as [c|] eqn:E4; cbn; [|discriminate].
    intros H. injection H as _ <- <-.
    destruct (Hres _ _ _ _ E1) as [Hsz Hmd].
    destruct (Harr _ _ E2) as [Hs2 Hd2]; [congruence|].
    destruct (Hexp _ _ E3) as [Hs3 Hd3].
    destruct (Hpre _ _ E4) as [Hs4 Hd4].
    rewrite Hs4, Hs3, Hs2, Hsz, Hd4, Hd3, Hd2. repeat split.
  - destruct (convert W image "RGB") as [rgb|] eqn:E0; cbn; [|discriminate].
    destruct (resize W rgb (w, h) LANCZOS) as [small|] eqn:E1; cbn; [|discriminate].
    destruct (np_array W small) as [a|] eqn:E2; cbn; [|discriminate].
    destruct (expand_dims W a 0) as [b|] eqn:E3; cbn; [|discriminate].
    destruct (preprocess_input W b) as [c|] eqn:E4; cbn; [|discriminate].
    intros H. injection H as _ <- <-.
    destruct (Hconv _ _ _ E0) as [Hm0 _].
    destruct (Hres _ _ _ _ E1) as [Hsz Hmd].
    destruct (Harr _ _ E2) as [Hs2 Hd2]; [congruence|].
    destruct (Hexp _ _ E3) as [Hs3 Hd3].
    destruct (Hpre _ _ E4) as [Hs4 Hd4].
    rewrite Hs4, Hs3, Hs2, Hsz, Hd4, Hd3, Hd2. repeat split.
Qed.

Lemma preprocess_shape_any_target_witness :
  @shape Demo.deployed
    {| Demo.a_shape := [1; 240; 320; 3]; Demo.a_dtype := "float32";
       Demo.a_tag := Byte.x08 |} = [1; 240; 320; 3] /\
  @dtype Demo.deployed
    {| Demo.a_shape := [1; 240; 320; 3]; Demo.a_dtype := "float32";
       Demo.a_tag := Byte.x08 |} = "float32" /\
  @None string = None.
Proof.
  eapply (preprocess_shape_any_target Demo.deployed (Demo.picture Byte.x08) 320 240).
  - apply demo_contract.
  - reflexivity.
Defined.

(** ** The batch loop, item by item *)

(** The calls made for one file do not depend on the rows gathered so far. *)
Lemma batch_step_run W model results file :
  batch_step W model results file
  = (trace_of (batch_step W model [] file), Ok (results ++ [row_of W model file])).
Proof.
  unfold batch_step, row_of, item_outcome, result_of, trace_of, try_except, bind, call.
  destruct (Image_open W file) as [image|msg]; cbn; [|reflexivity].
  destruct (predict_image W model image) as [tr [[[label c] e]|msg]]; cbn; [|reflexivity].
  destruct (truthy e); cbn; destruct c; reflexivity.
Qed.

Lemma batch_loop_run W model files : forall results,
  batch_loop W model results files
  = (flat_map (fun f => trace_of (batch_step W model [] f)) files,
     Ok (results ++ map (row_of W model) files)).
Proof.
  induction files as [|file rest IH]; intros results; cbn.
  - rewrite app_nil_r. reflexivity.
  - unfold bind. rewrite batch_step_run, IH, <- app_assoc. reflexivity.
Qed.

(** The calls made for one file: one [Image.open], then at most one
    forward pass. *)
Lemma batch_step_trace W model file :
  exists rest,
    trace_of (batch_step W model [] file) = EvImageOpen (name file) :: rest /\
    filter is_open_event rest = [] /\
    length (filter is_predict_event rest) <= 1.
Proof.
  unfold batch_step, trace_of, try_except, bind, call.
  destruct (Image_open W file) as [image|msg]; cbn.
  2:{ eexists. split; [reflexivity|]. split; cbn; auto. }
  destruct (predict_image_cases W model image)
    as (tr & v & Hrun & _ & Hopen & Hpred).
  rewrite Hrun. destruct v as [[label c] e].
  destruct (truthy e); cbn.
  - eexists. split; [reflexivity|]. rewrite !app_nil_r. split; assumption.
  - destruct c; cbn; eexists; (split; [reflexivity|]);
      rewrite !app_nil_r; split; assumption.
Qed.

(** X14: processing two batches one after the other gives the rows and
    the calls of processing their concatenation: a file's row depends
    neither on its position nor on the other files of the batch. *)
Theorem process_batch_app W model xs ys :
  exists tr1 rows1 tr2 rows2,
    process_batch W model xs = (tr1, Ok rows1) /\
    process_batch W model ys = (tr2, Ok rows2) /\
    process_batch W model (xs ++ ys) = (tr1 ++ tr2, Ok (rows1 ++ rows2)).
Proof.
  unfold process_batch. do 4 eexists.
  rewrite !batch_loop_run. split; [reflexivity|]. split; [reflexivity|].
  rewrite flat_map_app, map_app. reflexivity.
Qed.

(** X15: the call log of the batch loop is one segment per uploaded file,
    in input order; the segment of a file starts with the [Image.open] of
    that file, holds no other [Image.open] and holds at most one forward
    pass.  So every file is opened exactly once, in input order, and at
    most one forward pass is run for each file. *)
Theorem batch_opens_each_file_once W model files :
  exists segments,
    trace_of (process_batch W model files) = concat segments /\
    Forall2 file_segment files segments /\
    filter is_open_event (trace_of (process_batch W model files))
    = map (fun f => EvImageOpen (name f)) files /\
    length (filter is_predict_event (trace_of (process_batch W model files)))
    <= length files.
Proof.
  exists (map (fun f => trace_of (batch_step W model [] f)) files).
  unfold process_batch. rewrite batch_loop_run.
  change (trace_of (flat_map (fun f => trace_of (batch_step W model [] f)) files,
                    Ok ([] ++ map (row_of W model) files)))
    with (flat_map (fun f => trace_of (batch_step W model [] f)) files).
  rewrite flat_map_concat_map. split; [reflexivity|]. split.
  - induction files as [|file rest IH]; cbn [map]; constructor; [|exact IH].
    exact (batch_step_trace W model file).
  - induction files as [|file rest [IHo IHp]]; cbn [map concat length].
    + split; [reflexivity | apply Nat.le_refl].
    + destruct (batch_step_trace W model file) as (tl & Heq & Hopen & Hpred).
      rewrite Heq, !filter_app. cbn. rewrite Hopen, IHo, length_app.
      split; [reflexivity|]. lia.
Qed.

Lemma percent_is_not_na (s : string) : (s ++ "%")%string <> "N/A".
Proof.
  destruct s as [|a [|b [|c s]]]; cbn; try discriminate.
  intros H. injection H as _ _ _ H. destruct s; discriminate.
Qed.

(** X16: in every row of a batch the three result columns tell the same
    story: Status is one of the three fixed texts; it is "Failed" exactly
    when Confidence is "N/A" and exactly when Prediction is "Error"; it
    is "DR Detected" exactly when Prediction is "Diabetic_Retinopathy" and
    "No DR" exactly when Prediction is "No_Diabetic_Retinopathy". *)
Theorem batch_rows_consistent W model files :
  exists tr rows,
    process_batch W model files = (tr, Ok rows) /\
    Forall (fun row =>
      (Status row = "Failed" \/ Status row = "DR Detected" \/ Status row = "No DR") /\
      (Status row = "Failed" <-> Confidence row = "N/A") /\
      (Status row = "Failed" <-> Prediction row = Some "Error") /\
      (Status row = "DR Detected" <-> Prediction row = Some "Diabetic_Retinopathy") /\
      (Status row = "No DR" <-> Prediction row = Some "No_Diabetic_Retinopathy")) rows.
Proof.
  unfold process_batch. rewrite batch_loop_run. do 2 eexists. split; [reflexivity|].
  cbn [app]. apply Forall_forall. intros row Hin.
  apply in_map_iff in Hin. destruct Hin as (file & <- & _).
  destruct (row_of_cases W model file)
    as [(c & _ & _ & ->) | [(c & _ & _ & ->) | (_ & _ & ->)]]; cbn.
  - split; [auto|]. repeat split; try discriminate; try reflexivity.
    intros H. exfalso. exact (percent_is_not_na _ H).
  - split; [auto|]. repeat split; try discriminate; try reflexivity.
    intros H. exfalso. exact (percent_is_not_na _ H).
  - split; [auto|]. repeat split; try discriminate; reflexivity.
Qed.

Lemma count_status_perm needle rows rows' :
  Permutation rows rows' -> count_status needle rows = count_status needle rows'.
Proof.
  induction 1 as [|row l l' _ IH|a b l|l l' l'' _ IH1 _ IH2].
  - reflexivity.
  - rewrite !count_status_cons, IH. reflexivity.
  - rewrite !count_status_cons. lia.
  - congruence.
Qed.

(** X17: the four counters of the summary do not depend on the order in
    which the files were uploaded. *)
Theorem summary_order_independent W model files files' :
  Permutation files files' ->
  exists tr rows tr' rows',
    process_batch W model files = (tr, Ok rows) /\
    process_batch W model files' = (tr', Ok rows') /\
    Permutation rows rows' /\
    summary rows = summary rows'.
Proof.
  intros Hperm. unfold process_batch. rewrite !batch_loop_run.
  do 4 eexists. split; [reflexivity|]. split; [reflexivity|]. cbn [app].
  assert (Hrows : Permutation (map (row_of W model) files) (map (row_of W model) files'))
    by (apply Permutation_map; exact Hperm).
  split; [exact Hrows|]. unfold summary.
  rewrite (Permutation_length Hrows).
  rewrite (count_status_perm "DR Detected" _ _ Hrows).
  rewrite (count_status_perm "No DR" _ _ Hrows).
  rewrite (count_status_perm "Failed" _ _ Hrows). reflexivity.
Qed.

Lemma summary_order_independent_witness :
  exists tr rows tr' rows',
    process_batch Demo.deployed (Some tt)
      [Demo.file "a.jpg" [Byte.x09]; Demo.file "b.jpg" []] = (tr, Ok rows) /\
    process_batch Demo.deployed (Some tt)
      [Demo.file "b.jpg" []; Demo.file "a.jpg" [Byte.x09]] = (tr', Ok rows') /\
    Permutation rows rows' /\
    summary rows = summary rows'.
Proof.
  apply (summary_order_independent Demo.deployed (Some tt)).
  apply perm_swap.
Defined.

(** ** The report name *)

Lemma contains_dot_cons c s :
  contains "." (String c s) = false ->
  Ascii.eqb c "." = false /\ contains "." s = false.
Proof.
  change (contains "." (String c s))
    with (prefix "." (String c s) || contains "." s).
  intros H. apply orb_false_iff in H. destruct H as [Hp Hs]. split; [|exact Hs].
  apply Ascii.eqb_neq. intros ->. destruct s; cbn in Hp; discriminate.
Qed.

Lemma split_no_dot b : contains "." b = false -> split "." b = [b].
Proof.
  induction b as [|c b IH]; intros H; [reflexivity|].
  destruct (contains_dot_cons c b H) as [Hc Hb].
  cbn [split]. rewrite Hc, (IH Hb). reflexivity.
Qed.

Lemma split_at_first_dot b rest :
  contains "." b = false ->
  split "." (b ++ String "." rest) = b :: split "." rest.
Proof.
  induction b as [|c b IH]; intros H; [reflexivity|].
  destruct (contains_dot_cons c b H) as [Hc Hb].
  cbn [split append]. rewrite Hc, (IH Hb). reflexivity.
Qed.

(** X18: the report name is built from the part of the uploaded name
    before its first dot; whatever follows that dot is dropped, so uploads
    whose names agree up to the first dot are offered the same report
    name.  A name without a dot is used whole. *)
Theorem report_name_cut_at_first_dot b rest data :
  contains "." b = false ->
  report_file_name {| name := b ++ "." ++ rest; getvalue := data |}
  = ("DR_Report_" ++ b ++ ".txt")%string /\
  report_file_name {| name := b; getvalue := data |}
  = ("DR_Report_" ++ b ++ ".txt")%string.
Proof.
  intros Hb. unfold report_file_name. cbn [name]. split.
  - change ("." ++ rest)%string with (String "." rest).
    rewrite (split_at_first_dot b rest Hb). reflexivity.
  - rewrite (split_no_dot b Hb). reflexivity.
Qed.

Lemma report_name_cut_at_first_dot_witness :
  report_file_name {| name := "patient_7" ++ "." ++ "left.eye.png"; getvalue := [] |}
  = ("DR_Report_" ++ "patient_7" ++ ".txt")%string /\
  report_file_name {| name := "patient_7"; getvalue := [] |}
  = ("DR_Report_" ++ "patient_7" ++ ".txt")%string.
Proof.
  apply (report_name_cut_at_first_dot "patient_7" "left.eye.png" []). reflexivity.
Defined.

(** ** Values shown from the metadata *)

Lemma metadata_get_missing B items key default :
  (forall k v, In (k, v) items -> k <> key) ->
  metadata_get B (JDict items) key default = ret default.
Proof.
  intros Hno. unfold metadata_get.
  destruct (find (fun kv => fst kv =? key) items) as [[k v]|] eqn:Hfind; [|reflexivity].
  exfalso. destruct (find_some _ _ Hfind) as [Hin Hk]. cbn in Hk.
  apply String.eqb_eq in Hk. exact (Hno k v Hin Hk).
Qed.

(** X19: for a metadata dict that has none of the three keys, the sidebar
    falls back on the defaults written in the calls: accuracy "0.0%",
    AUC "0.000" and model name "EfficientNet". *)
Theorem sidebar_missing_keys B kv items :
  (forall k v, In (k, v) (kv :: items) ->
     k <> "test_accuracy" /\ k <> "test_auc" /\ k <> "architecture") ->
  sidebar_stats B (JDict (kv :: items))
  = ([], Ok (Some ("0.0%", "0.000", "**Model:** EfficientNet"))).
Proof.
  intros Hno. unfold sidebar_stats, accuracy_text, auc_text, model_text. cbn [json_truthy].
  rewrite !metadata_get_missing by (intros k v Hin; apply (Hno k v Hin)).
  reflexivity.
Qed.

Lemma sidebar_missing_keys_witness :
  sidebar_stats Demo.builtins (JDict [("classes", JList [JStr "DR"; JStr "No_DR"])])
  = ([], Ok (Some ("0.0%", "0.000", "**Model:** EfficientNet"))).
Proof.
  apply (sidebar_missing_keys Demo.builtins).
  intros k v [H|[]]. injection H as <- _. repeat split; discriminate.
Defined.

(** X20: in a deployment whose model loads and that has no metadata
    file, the sidebar shows the statistics of the default record:
    accuracy "96.0%", AUC "0.990" and model name "EfficientNetB3". *)
Theorem sidebar_without_metadata_file W B p (m : Model W) :
  first_existing W possible_paths = Some p ->
  load_model W p = Ok m ->
  no_metadata_file W ->
  exists md,
    result_of (load_trained_model W) = Ok (Some m, md, None) /\
    sidebar_stats B md
    = ([], Ok (Some ("96.0%", "0.990", "**Model:** EfficientNetB3"))).
Proof.
  intros Hp Hm Hnone.
  destruct (first_existing_split W _ _ Hp) as (before & after & Heq & Hno & Hex).
  rewrite (load_trained_model_found W before p after Heq Hno Hex), Hm.
  rewrite (find_metadata_none W metadata_paths Hnone).
  exists default_metadata. split; reflexivity.
Qed.

Lemma sidebar_without_metadata_file_witness :
  exists md,
    result_of (load_trained_model Demo.deployed) = Ok (Some tt, md, None) /\
    sidebar_stats Demo.builtins md
    = ([], Ok (Some ("96.0%", "0.990", "**Model:** EfficientNetB3"))).
Proof.
  apply (sidebar_without_metadata_file Demo.deployed Demo.builtins
           "models/best_model.h5" tt).
  - reflexivity.
  - reflexivity.
  - intros q Hq. cbn in Hq.
    repeat (destruct Hq as [<-|Hq]; [reflexivity|]). contradiction.
Defined.

(** X21: a metadata file whose content is truthy but not a JSON object
    (a non-empty array or string, a number, [true]) is accepted by
    [load_trained_model] as it is, and the sidebar then raises
    [AttributeError] on its first [metadata.get]. *)
Theorem non_object_metadata_breaks_sidebar W B p (m : Model W) q md :
  first_existing W possible_paths = Some p ->
  load_model W p = Ok m ->
  first_existing W metadata_paths = Some q ->
  json_load W q = Ok md ->
  json_truthy md = true ->
  (forall items, md <> JDict items) ->
  result_of (load_trained_model W) = Ok (Some m, md, None) /\
  sidebar_stats B md
  = ([], Raise ("'" ++ type_name B md ++ "' object has no attribute 'get'")).
Proof.
  intros Hp Hm Hq Hjson Htrue Hnodict.
  rewrite (load_trained_model_with_metadata_file W p m q Hp Hm Hq), Hjson.
  unfold sidebar_stats. rewrite Htrue.
  destruct md; try discriminate; cbn; split; try reflexivity.
  all: exfalso; eapply Hnodict; reflexivity.
Qed.

Lemma non_object_metadata_breaks_sidebar_witness :
  result_of (load_trained_model (Demo.with_metadata (Ok (JList [JStr "DR"]))))
  = Ok (Some tt, JList [JStr "DR"], None) /\
  sidebar_stats Demo.builtins (JList [JStr "DR"])
  = ([], Raise ("'" ++ type_name Demo.builtins (JList [JStr "DR"])
                ++ "' object has no attribute 'get'")).
Proof.
  apply (non_object_metadata_breaks_sidebar
           (Demo.with_metadata (Ok (JList [JStr "DR"]))) Demo.builtins
           "models/best_model.h5" tt "metadata.json");
    try reflexivity. discriminate.
Defined.

(** X22: a metadata file whose content is falsy without being null (an
    empty object, an empty array, an empty string, zero, [false]) is
    returned as the metadata, without the defaults, and the sidebar shows
    no statistics for it. *)
Theorem falsy_metadata_hides_statistics W B p (m : Model W) q md :
  first_existing W possible_paths = Some p ->
  load_model W p = Ok m ->
  first_existing W metadata_paths = Some q ->
  json_load W q = Ok md ->
  md <> JNull ->
  json_truthy md = false ->
  result_of (load_trained_model W) = Ok (Some m, md, None) /\
  sidebar_stats B md = ([], Ok None).
Proof.
  intros Hp Hm Hq Hjson Hmd Hfalse.
  rewrite (load_trained_model_with_metadata_file W p m q Hp Hm Hq), Hjson.
  unfold sidebar_stats. rewrite Hfalse. split; [|reflexivity].
  destruct md; try reflexivity. contradiction.
Qed.

Lemma falsy_metadata_hides_statistics_witness :
  result_of (load_trained_model (Demo.with_metadata (Ok (JDict []))))
  = Ok (Some tt, JDict [], None) /\
  sidebar_stats Demo.builtins (JDict []) = ([], Ok None).
Proof.
  apply (falsy_metadata_hides_statistics
           (Demo.with_metadata (Ok (JDict []))) Demo.builtins
           "models/best_model.h5" tt "metadata.json");
    try reflexivity. discriminate.
Defined.

(** X23: when the metadata dict stores the accuracy as text, the sidebar
    raises [ValueError]: the text is repeated a hundred times by [* 100]
    and then refused by the [.1f] format. *)
Theorem text_accuracy_breaks_sidebar B items k s :
  find (fun kv => fst kv =? "test_accuracy") items = Some (k, JStr s) ->
  sidebar_stats B (JDict items)
  = ([], Raise "Unknown format code 'f' for object of type 'str'").
Proof.
  intros Hfind. unfold sidebar_stats, accuracy_text, metadata_get.
  destruct items as [|kv items]; [discriminate|]. cbn [json_truthy].
  rewrite Hfind. reflexivity.
Qed.

Lemma text_accuracy_breaks_sidebar_witness :
  sidebar_stats Demo.builtins
    (JDict [("architecture", JStr "EfficientNetB3"); ("test_accuracy", JStr "0.96")])
  = ([], Raise "Unknown format code 'f' for object of type 'str'").
Proof.
  apply (text_accuracy_breaks_sidebar Demo.builtins _ "test_accuracy" "0.96").
  reflexivity.
Defined.
